(** * Student report service (go-service/main.go): session tokens,
      resilient fetch and request handler

    A shallow embedding of [main.go].  The process-wide variable
    [authTokens], the outbound HTTP calls and the clock become an explicit
    [World] threaded through a small monad [Proc]; [log.Fatalf], which
    logs and then terminates the process, becomes the outcome [Exited].
    The Go standard library, gofpdf and the upstream API are outside the
    repository and are collected in the record [Platform]. *)

From Stdlib Require Import ZArith List String Ascii Bool Lia.
From Stdlib Require Import DecimalString DecimalPos DecimalZ.
Import ListNotations.

Local Open Scope string_scope.
Local Open Scope list_scope.
Local Open Scope Z_scope.

(** ** Results of fallible calls: Go's [(value, err)] pairs *)

Inductive Result (E A : Type) : Type :=
| Ok (a : A)
| Err (e : E).

Arguments Ok {E A} a.
Arguments Err {E A} e.

(** ** Data model *)

(** [type StudentDetail struct], lines 20-42. *)
Record StudentDetail : Type := mkStudentDetail {
  ID : Z;
  Name : string;
  Email : string;
  SystemAccess : bool;
  Phone : string;
  Gender : string;
  DOB : string;
  Class_ : string;
  Section_ : string;
  Roll : string;
  FatherName : string;
  FatherPhone : string;
  MotherName : string;
  MotherPhone : string;
  GuardianName : string;
  GuardianPhone : string;
  RelationOfGuardian : string;
  CurrentAddress : string;
  PermanentAddress : string;
  AdmissionDate : string;
  ReporterName : string
}.

(** [type User struct] and [type LoginResponse struct], lines 45-55. *)
Record User : Type := mkUser {
  userID : Z;
  userName : string;
  userRole : string
}.

Record LoginResponse : Type := mkLoginResponse {
  loginAccessToken : string;
  loginUser : User
}.

(** [type Config struct], lines 58-63. *)
Record Config : Type := mkConfig {
  Port : string;
  BackendURL : string;
  AdminEmail : string;
  AdminPassword : string
}.

(** A [time.Time] is an instant counted in nanoseconds from Go's zero
    Time (January 1, year 1, 00:00 UTC); a [time.Duration] is a signed
    64-bit count of nanoseconds. *)
Definition Time := Z.
Definition Duration := Z.

Definition zeroTime : Time := 0.
Definition Second : Duration := 1000000000.
Definition Minute : Duration := 60 * Second.
Definition maxDuration : Duration := 2 ^ 63 - 1.
Definition minDuration : Duration := - 2 ^ 63.

(** [t.Sub(u)]: the difference, clamped to the range of a Duration. *)
Definition timeSub (t u : Time) : Duration :=
  let d := t - u in
  if maxDuration <? d then maxDuration
  else if d <? minDuration then minDuration
  else d.

(** The package-level variable [authTokens], lines 65-70. *)
Record AuthTokens : Type := mkAuthTokens {
  accessToken : string;
  refreshToken : string;
  csrfToken : string;
  lastRefresh : Time
}.

(** Its value when the process starts: Go's zero value of the struct. *)
Definition authTokens0 : AuthTokens := mkAuthTokens "" "" "" zeroTime.

(** ** HTTP messages *)

Inductive Method : Type := GET | POST.

Record Cookie : Type := mkCookie {
  cookieName : string;
  cookieValue : string
}.

Record Request : Type := mkRequest {
  reqMethod : Method;
  reqURL : string;
  reqCookies : list Cookie;
  reqHeader : list (string * string);
  reqBody : string
}.

Record Response : Type := mkResponse {
  StatusCode : Z;
  Cookies : list Cookie;
  Body : string
}.

(** What [client.Post] / [client.Do] hand back: a transport error (which
    includes the 10 second client timeout) or a response. *)
Inductive NetResult : Type :=
| NetError (msg : string)
| NetResponse (resp : Response).

Definition StatusOK : Z := 200.
Definition StatusBadRequest : Z := 400.
Definition StatusUnauthorized : Z := 401.
Definition StatusNotFound : Z := 404.
Definition StatusInternalServerError : Z := 500.

(** What the handler leaves in its [http.ResponseWriter]. *)
Record HttpReply : Type := mkHttpReply {
  replyCode : Z;
  replyHeader : list (string * string);
  replyBody : string
}.

(** [http.Error(w, msg, code)]. *)
Definition httpError (msg : string) (code : Z) : HttpReply :=
  mkHttpReply code
    [("Content-Type", "text/plain; charset=utf-8");
     ("X-Content-Type-Options", "nosniff")]
    (msg ++ String (ascii_of_nat 10) "")%string.

(** ** The calls made on the PDF library *)

Inductive PdfOp : Type :=
| PdfNew (orientation unit_ size fontDir : string)
| AddPage
| SetFont (family style : string) (size : Z)
| Cell (w h : Z) (txt : string)
| Ln (h : Z)
| SetY (y : Z).

(** ** Process state and the monad of the service *)

Record World : Type := mkWorld {
  authTokens : AuthTokens;   (* the global session *)
  ticks : nat;               (* how many times the clock was read *)
  trace : list Request       (* upstream requests sent so far, oldest first *)
}.

Definition withTokens (a : AuthTokens) (w : World) : World :=
  mkWorld a (ticks w) (trace w).

(** The world after one more upstream call, and after one more reading
    of the clock. *)
Definition sent (req : Request) (w : World) : World :=
  mkWorld (authTokens w) (ticks w) (trace w ++ [req]).

Definition ticked (w : World) : World :=
  mkWorld (authTokens w) (S (ticks w)) (trace w).

(** Why [log.Fatalf] was reached in [authenticateWithBackend]. *)
Inductive Fatal : Type :=
| FatalPost (msg : string)                 (* line 133 *)
| FatalStatus (status : Z) (body : string) (* line 140 *)
| FatalParse.                              (* line 157 *)

Inductive Outcome (A : Type) : Type :=
| Returned (a : A) (w : World)
| Exited (f : Fatal) (w : World).

Arguments Returned {A} a w.
Arguments Exited {A} f w.

Definition Proc (A : Type) : Type := World -> Outcome A.

Definition ret {A} (a : A) : Proc A := fun w => Returned a w.

Definition bind {A B} (c : Proc A) (k : A -> Proc B) : Proc B :=
  fun w =>
    match c w with
    | Returned a w' => k a w'
    | Exited f w' => Exited f w'
    end.

Definition logFatal {A} (f : Fatal) : Proc A := fun w => Exited f w.

Definition getTokens : Proc AuthTokens := fun w => Returned (authTokens w) w.

Definition modifyTokens (g : AuthTokens -> AuthTokens) : Proc unit :=
  fun w => Returned tt (withTokens (g (authTokens w)) w).

Declare Scope proc_scope.
Delimit Scope proc_scope with proc.
Notation "x <- c ;; k" := (bind c (fun x => k))
  (at level 61, c at next level, right associativity) : proc_scope.
Notation "c ;; k" := (bind c (fun _ => k))
  (at level 61, right associativity) : proc_scope.
Local Open Scope proc_scope.

Definition finalWorld {A} (o : Outcome A) : World :=
  match o with Returned _ w => w | Exited _ w => w end.

Definition hasExited {A} (o : Outcome A) : bool :=
  match o with Returned _ _ => false | Exited _ _ => true end.

(** ** [strconv.Atoi]

    The standard library's parser, which the handler calls at line 177,
    written after its Go implementation. *)

Inductive NumError : Type := ErrSyntax | ErrRange.

(** The digit loop: [ch -= '0'] on a byte wraps around, so every byte
    outside ['0'..'9'] ends up above 9. *)
Fixpoint atoiDigits (s : string) (n : Z) : option Z :=
  match s with
  | EmptyString => Some n
  | String ch rest =>
      let d := (Z.of_N (N_of_ascii ch) - 48) mod 256 in
      if 9 <? d then None else atoiDigits rest (n * 10 + d)
  end.

Definition intSize : Z := 64.
Definition maxInt : Z := 2 ^ (intSize - 1) - 1.
Definition minInt : Z := - 2 ^ (intSize - 1).

Definition inIntRange (v : Z) : bool := (minInt <=? v) && (v <=? maxInt).

(** An optional sign, then one or more decimal digits; a value that does
    not fit the [int] type is a range error. *)
Definition Atoi (s : string) : Result NumError Z :=
  match s with
  | EmptyString => Err ErrSyntax
  | String c0 rest =>
      let neg := Ascii.eqb c0 "-" in
      let digits := if neg || Ascii.eqb c0 "+" then rest else s in
      match digits with
      | EmptyString => Err ErrSyntax
      | _ =>
          match atoiDigits digits 0 with
          | None => Err ErrSyntax
          | Some n =>
              let v := if neg then - n else n in
              if inIntRange v then Ok v else Err ErrRange
          end
      end
  end.

(** ** The platform: everything the service calls but does not define *)

Record Platform : Type := mkPlatform {
  (* the upstream API: the answer to the [n]-th call of the HTTP client *)
  upstream : nat -> Request -> NetResult;
  (* the [n]-th reading of the system clock *)
  clock : nat -> Time;
  (* [os.Getenv], after [godotenv.Load] *)
  Getenv : string -> string;
  (* [json.Marshal] of the login map; it cannot fail on a string map *)
  jsonMarshalLogin : string -> string -> string;
  (* [json.NewDecoder(body).Decode] at the two struct types *)
  decodeLogin : string -> option LoginResponse;
  decodeStudent : string -> option StudentDetail;
  (* does [http.NewRequest] accept the URL *)
  validURL : string -> bool;
  (* [t.Format("January 2, 2006")] *)
  formatDate : Time -> string;
  (* gofpdf: the bytes [pdf.Output] writes for a sequence of calls *)
  pdfOutput : list PdfOp -> Result string string
}.

Inductive FetchError : Type :=
| ErrCreatingRequest                                  (* line 221 *)
| ErrMakingRequest (msg : string)                     (* line 235 *)
| ErrMakingRequestAfterRefresh (msg : string)         (* line 257 *)
| ErrNon200AfterRefresh (status : Z) (body : string)  (* line 263 *)
| ErrNotFound (studentID : string)                    (* line 266 *)
| ErrNon200 (status : Z) (body : string)              (* line 269 *)
| ErrDecoding.                                        (* line 275 *)

Section Service.

Variable P : Platform.

(** *** Primitive effects *)

(** [client.Post] and [client.Do]: the call is recorded, the platform
    answers. *)
Definition clientDo (req : Request) : Proc NetResult :=
  fun w =>
    Returned (upstream P (List.length (trace w)) req) (sent req w).

(** [time.Now()]. *)
Definition timeNow : Proc Time :=
  fun w => Returned (clock P (ticks w)) (ticked w).

(** [time.Since(t)]. *)
Definition timeSince (t : Time) : Proc Duration :=
  now <- timeNow ;; ret (timeSub now t).

(** *** [getEnv] and [loadConfig], lines 92-113 *)

Definition getEnv (key defaultValue : string) : string :=
  let value := Getenv P key in
  if String.eqb value "" then defaultValue else value.

Definition loadConfig : Config :=
  mkConfig (getEnv "PORT" "5008")
           (getEnv "BACKEND_URL" "http://localhost:5007/api/v1")
           (getEnv "ADMIN_EMAIL" "admin@school-admin.com")
           (getEnv "ADMIN_PASSWORD" "3OU4zn3q6Zh9").

(** *** [authenticateWithBackend], lines 115-163 *)

Definition loginRequest (config : Config) : Request :=
  mkRequest POST (BackendURL config ++ "/auth/login")%string []
            [("Content-Type", "application/json")]
            (jsonMarshalLogin P (AdminEmail config) (AdminPassword config)).

(** One turn of the cookie loop, lines 145-151. *)
Definition storeCookie (a : AuthTokens) (cookie : Cookie) : AuthTokens :=
  if String.eqb (cookieName cookie) "accessToken" then
    mkAuthTokens (cookieValue cookie) (refreshToken a) (csrfToken a) (lastRefresh a)
  else if String.eqb (cookieName cookie) "refreshToken" then
    mkAuthTokens (accessToken a) (cookieValue cookie) (csrfToken a) (lastRefresh a)
  else if String.eqb (cookieName cookie) "csrfToken" then
    mkAuthTokens (accessToken a) (refreshToken a) (cookieValue cookie) (lastRefresh a)
  else a.

Definition storeCookies (cookies : list Cookie) (a : AuthTokens) : AuthTokens :=
  fold_left storeCookie cookies a.

Definition stampRefresh (t : Time) (a : AuthTokens) : AuthTokens :=
  mkAuthTokens (accessToken a) (refreshToken a) (csrfToken a) t.

Definition authenticateWithBackend (config : Config) : Proc unit :=
  r <- clientDo (loginRequest config) ;;
  match r with
  | NetError msg => logFatal (FatalPost msg)
  | NetResponse resp =>
      if negb (StatusCode resp =? StatusOK) then
        logFatal (FatalStatus (StatusCode resp) (Body resp))
      else
        modifyTokens (storeCookies (Cookies resp)) ;;
        match decodeLogin P (Body resp) with
        | None => logFatal FatalParse
        | Some loginResponse =>
            now <- timeNow ;;
            modifyTokens (stampRefresh now)
        end
  end.

(** *** [fetchStudentData], lines 206-279 *)

(** The authenticated read request, built at lines 219-230 and again at
    lines 247-253. *)
Definition studentRequest (url : string) (a : AuthTokens) : Request :=
  mkRequest GET url
            [mkCookie "accessToken" (accessToken a);
             mkCookie "refreshToken" (refreshToken a);
             mkCookie "csrfToken" (csrfToken a)]
            [("X-CSRF-Token", csrfToken a)]
            "".

(** Lines 272-278. *)
Definition decodeBody (resp : Response) : Result FetchError StudentDetail :=
  match decodeStudent P (Body resp) with
  | Some student => Ok student
  | None => Err ErrDecoding
  end.

(** Lines 210-215. *)
Definition refreshIfStale : Proc unit :=
  a <- getTokens ;;
  since <- timeSince (lastRefresh a) ;;
  if 14 * Minute <? since then authenticateWithBackend loadConfig
  else ret tt.

(** Lines 246-264: the single retry after re-authentication. *)
Definition retryRequest (url : string) : Proc (Result FetchError StudentDetail) :=
  a <- getTokens ;;
  r <- clientDo (studentRequest url a) ;;
  match r with
  | NetError msg => ret (Err (ErrMakingRequestAfterRefresh msg))
  | NetResponse resp =>
      if negb (StatusCode resp =? StatusOK) then
        ret (Err (ErrNon200AfterRefresh (StatusCode resp) (Body resp)))
      else ret (decodeBody resp)
  end.

(** Lines 217-278: the read request and the classification of its
    response. *)
Definition readStudent (backendURL studentID : string)
  : Proc (Result FetchError StudentDetail) :=
  let url := (backendURL ++ "/students/" ++ studentID)%string in
  if negb (validURL P url) then ret (Err ErrCreatingRequest)
  else
    a <- getTokens ;;
    r <- clientDo (studentRequest url a) ;;
    match r with
    | NetError msg => ret (Err (ErrMakingRequest msg))
    | NetResponse resp =>
        if StatusCode resp =? StatusUnauthorized then
          authenticateWithBackend loadConfig ;;
          retryRequest url
        else if StatusCode resp =? StatusNotFound then
          ret (Err (ErrNotFound studentID))
        else if negb (StatusCode resp =? StatusOK) then
          ret (Err (ErrNon200 (StatusCode resp) (Body resp)))
        else ret (decodeBody resp)
    end.

Definition fetchStudentData (backendURL studentID : string)
  : Proc (Result FetchError StudentDetail) :=
  refreshIfStale ;; readStudent backendURL studentID.

(** *** [generatePDF] and [addInfoRow], lines 281-374 *)

Definition addInfoRow (label value : string) : list PdfOp :=
  [SetFont "Arial" "B" 10; Cell 40 8 (label ++ ":")%string;
   SetFont "Arial" "" 10; Cell 0 8 value; Ln 8].

(** [fmt.Sprintf("%d", n)]. *)
Definition sprintfD (n : Z) : string := NilZero.string_of_int (Z.to_int n).

(** The calls [generatePDF] makes on the document, in order, when the
    date line reads [date]. *)
Definition pdfOps (date : string) (student : StudentDetail) : list PdfOp :=
  [PdfNew "P" "mm" "A4" ""; AddPage;
   SetFont "Arial" "B" 16; Cell 40 10 "Student Report"; Ln 15;
   SetFont "Arial" "B" 14; Cell 40 10 "School Management System"; Ln 10;
   SetFont "Arial" "I" 10; Cell 40 10 ("Generated on: " ++ date)%string; Ln 15;
   SetFont "Arial" "B" 12; Cell 40 10 "Personal Information"; Ln 10]
  ++ addInfoRow "ID" (sprintfD (ID student))
  ++ addInfoRow "Name" (Name student)
  ++ addInfoRow "Email" (Email student)
  ++ addInfoRow "Phone" (Phone student)
  ++ addInfoRow "Gender" (Gender student)
  ++ addInfoRow "Date of Birth" (DOB student)
  ++ addInfoRow "Admission Date" (AdmissionDate student)
  ++ [Ln 10; SetFont "Arial" "B" 12; Cell 40 10 "Academic Information"; Ln 10]
  ++ addInfoRow "Class" (Class_ student)
  ++ addInfoRow "Section" (Section_ student)
  ++ addInfoRow "Roll Number" (Roll student)
  ++ [Ln 10; SetFont "Arial" "B" 12; Cell 40 10 "Family Information"; Ln 10]
  ++ addInfoRow "Father's Name" (FatherName student)
  ++ addInfoRow "Father's Phone" (FatherPhone student)
  ++ addInfoRow "Mother's Name" (MotherName student)
  ++ addInfoRow "Mother's Phone" (MotherPhone student)
  ++ addInfoRow "Guardian's Name" (GuardianName student)
  ++ addInfoRow "Guardian's Phone" (GuardianPhone student)
  ++ addInfoRow "Relation of Guardian" (RelationOfGuardian student)
  ++ [Ln 10; SetFont "Arial" "B" 12; Cell 40 10 "Address Information"; Ln 10]
  ++ addInfoRow "Current Address" (CurrentAddress student)
  ++ addInfoRow "Permanent Address" (PermanentAddress student)
  ++ [Ln 10; SetY (-30); SetFont "Arial" "I" 8;
      Cell 0 10 "This is an official document of School Management System";
      Ln 5;
      Cell 0 10 ("Report generated by: " ++ ReporterName student)%string].

Definition generatePDF (student : StudentDetail) : Proc (Result string string) :=
  now <- timeNow ;;
  ret (pdfOutput P (pdfOps (formatDate P now) student)).

(** *** [generateReportHandler], lines 170-204 *)

Definition pdfReply (studentID pdfBytes : string) : HttpReply :=
  mkHttpReply StatusOK
    [("Content-Type", "application/pdf");
     ("Content-Disposition",
      ("attachment; filename=student_" ++ studentID ++ "_report.pdf")%string)]
    pdfBytes.

Definition invalidID (studentID : string) : bool :=
  match Atoi studentID with
  | Err _ => true
  | Ok id => id <=? 0
  end.

Definition generateReportHandler (config : Config) (studentID : string)
  : Proc HttpReply :=
  if invalidID studentID then
    ret (httpError "Invalid student ID" StatusBadRequest)
  else
    r <- fetchStudentData (BackendURL config) studentID ;;
    match r with
    | Err _ =>
        ret (httpError "Error fetching student data" StatusInternalServerError)
    | Ok student =>
        p <- generatePDF student ;;
        match p with
        | Err _ =>
            ret (httpError "Error generating PDF" StatusInternalServerError)
        | Ok pdfBytes => ret (pdfReply studentID pdfBytes)
        end
    end.

(** *** [main], lines 72-90: authenticate once, then serve *)

Definition startup : Proc Config :=
  authenticateWithBackend loadConfig ;; ret loadConfig.

(** The requests for the report route, served one after another. *)
Fixpoint serve (config : Config) (ids : list string) : Proc (list HttpReply) :=
  match ids with
  | [] => ret []
  | studentID :: rest =>
      reply <- generateReportHandler config studentID ;;
      replies <- serve config rest ;;
      ret (reply :: replies)
  end.

Definition main (ids : list string) : Proc (list HttpReply) :=
  config <- startup ;; serve config ids.

End Service.

(** * Properties *)

(** ** Request validation *)

(** The spec's side of the validation: a path id is a decimal
    representation of the integer [n] when it is an optional sign followed
    by one or more decimal digits whose positional value is [|n|]. *)
Definition digitChar (d : Z) : ascii := ascii_of_N (Z.to_N (48 + d)).

Definition renderDigits (ds : list Z) : string :=
  fold_right (fun d s => String (digitChar d) s) "" ds.

Definition digitsValue (ds : list Z) : Z :=
  fold_left (fun acc d => acc * 10 + d) ds 0.

Definition isDigit (d : Z) : Prop := 0 <= d <= 9.

Definition DecimalOf (s : string) (n : Z) : Prop :=
  exists ds, ds <> [] /\ Forall isDigit ds /\
    (s = renderDigits ds /\ n = digitsValue ds
     \/ s = String "+" (renderDigits ds) /\ n = digitsValue ds
     \/ s = String "-" (renderDigits ds) /\ n = - digitsValue ds).

Definition PositiveDecimal (s : string) : Prop :=
  exists n, DecimalOf s n /\ 0 < n.

(** ** Reading the trace *)

Definition isLogin (req : Request) : bool :=
  match reqMethod req with POST => true | GET => false end.

Definition isRead (req : Request) : bool := negb (isLogin req).

Definition logins (calls : list Request) : nat :=
  List.length (filter isLogin calls).

Definition reads (calls : list Request) : nat :=
  List.length (filter isRead calls).

(** The upstream calls an outcome added to the trace of [w]. *)
Definition newCalls {A} (w : World) (o : Outcome A) : list Request :=
  skipn (List.length (trace w)) (trace (finalWorld o)).

Definition resultOf {A} (o : Outcome A) : option A :=
  match o with Returned a _ => Some a | Exited _ _ => None end.

(** ** The session and its age *)


(** The true age of the stored session at the next reading of the
    clock. *)
Definition sessionAge (P : Platform) (w : World) : Z :=
  clock P (ticks w) - lastRefresh (authTokens w).

(** The fetch starts with a call of the Authenticator: the first call it
    adds to the trace is the login request. *)
Definition refreshesFirst (P : Platform) (backendURL studentID : string)
    (w : World) : Prop :=
  nth_error (trace (finalWorld (fetchStudentData P backendURL studentID w)))
            (List.length (trace w))
  = Some (loginRequest P (loadConfig P)).

(** The value a login response carries for a cookie name: that of the
    last cookie so named. *)
Fixpoint cookieOf (name : string) (cookies : list Cookie) : option string :=
  match cookies with
  | [] => None
  | c :: rest =>
      match cookieOf name rest with
      | Some v => Some v
      | None => if String.eqb (cookieName c) name then Some (cookieValue c) else None
      end
  end.

Definition orKeep (carried : option string) (old : string) : string :=
  match carried with Some v => v | None => old end.

(** ** The outcome of the retried request, from its answer alone *)

Definition retryOutcome (P : Platform) (r : NetResult)
  : Result FetchError StudentDetail :=
  match r with
  | NetError msg => Err (ErrMakingRequestAfterRefresh msg)
  | NetResponse resp =>
      if StatusCode resp =? StatusOK then decodeBody P resp
      else Err (ErrNon200AfterRefresh (StatusCode resp) (Body resp))
  end.

(** ** Where the Authenticator fails inside a fetch *)

(** The freshness refresh fails. *)
Definition refreshFails (P : Platform) (w : World) (f : Fatal) (w' : World) : Prop :=
  14 * Minute < timeSub (clock P (ticks w)) (lastRefresh (authTokens w)) /\
  authenticateWithBackend P (loadConfig P) (ticked w) = Exited f w'.

(** The re-authentication after a 401 fails. *)
Definition recoveryFails (P : Platform) (backendURL studentID : string)
    (w : World) (f : Fatal) (w' : World) : Prop :=
  exists w1 resp,
    let url := (backendURL ++ "/students/" ++ studentID)%string in
    let read1 := studentRequest url (authTokens w1) in
    refreshIfStale P w = Returned tt w1 /\
    validURL P url = true /\
    upstream P (List.length (trace w1)) read1 = NetResponse resp /\
    StatusCode resp = StatusUnauthorized /\
    authenticateWithBackend P (loadConfig P) (sent read1 w1) = Exited f w'.

Definition authFailsInFetch (P : Platform) (backendURL studentID : string)
    (w : World) (f : Fatal) (w' : World) : Prop :=
  refreshFails P w f w' \/ recoveryFails P backendURL studentID w f w'.

(** ** Statements of the specification that the code does not satisfy *)

(** Every fetch answered 401 goes on to exactly one login and exactly one
    retried read. *)
Definition AlwaysRetriesAfter401 (P : Platform) (backendURL studentID : string)
    (w : World) : Prop :=
  forall w1 resp,
    let url := (backendURL ++ "/students/" ++ studentID)%string in
    let read1 := studentRequest url (authTokens w1) in
    refreshIfStale P w = Returned tt w1 ->
    validURL P url = true ->
    upstream P (List.length (trace w1)) read1 = NetResponse resp ->
    StatusCode resp = StatusUnauthorized ->
    let calls := newCalls (sent read1 w1) (fetchStudentData P backendURL studentID w) in
    logins calls = 1%nat /\ reads calls = 1%nat.

(** After a successful Authenticator run the three tokens are the values
    carried by the login response, and the stamp is the current time. *)
Definition ReplacesWholeSession (P : Platform) (config : Config) (w : World) : Prop :=
  forall w',
    authenticateWithBackend P config w = Returned tt w' ->
    exists resp,
      upstream P (List.length (trace w)) (loginRequest P config) = NetResponse resp /\
      cookieOf "accessToken" (Cookies resp) = Some (accessToken (authTokens w')) /\
      cookieOf "refreshToken" (Cookies resp) = Some (refreshToken (authTokens w')) /\
      cookieOf "csrfToken" (Cookies resp) = Some (csrfToken (authTokens w')) /\
      lastRefresh (authTokens w') = clock P (ticks w).

(** A request never terminates the process. *)
Definition RequestNeverExits (P : Platform) (config : Config) (studentID : string)
    (w : World) : Prop :=
  hasExited (generateReportHandler P config studentID w) = false.


(** ** A scripted platform for concrete runs *)

Definition ada : StudentDetail :=
  mkStudentDetail 1 "Ada" "ada@example.org" true "555-0100" "F" "1815-12-10"
    "10" "A" "7" "George" "555-0101" "Anne" "555-0102" "Anne" "555-0102"
    "mother" "12 St James Square" "12 St James Square" "2020-09-01" "admin".

(** A clock that starts on a day of the year 2026 and advances one second
    per reading. *)
Definition testNow : Time := 63900000000 * Second.

Definition cellText (op : PdfOp) : string :=
  match op with Cell _ _ txt => txt | _ => "" end.

(** The upstream answers its calls from a list, in order. *)
Definition scripted (answers : list NetResult) : Platform :=
  mkPlatform
    (fun n _ => nth n answers (NetError "connection refused"))
    (fun n => testNow + Z.of_nat n * Second)
    (fun _ => "")
    (fun username password => (username ++ ":" ++ password)%string)
    (fun body => if String.eqb body "welcome"
                 then Some (mkLoginResponse "a1" (mkUser 1 "admin" "admin"))
                 else None)
    (fun body => if String.eqb body "ada" then Some ada else None)
    (fun _ => true)
    (fun t => sprintfD (t / (86400 * Second)))
    (fun ops => Ok (String.concat ";" (map cellText ops))).

Definition answer (status : Z) (body : string) : NetResult :=
  NetResponse (mkResponse status [] body).

Definition loginOK : NetResult :=
  NetResponse (mkResponse 200
    [mkCookie "accessToken" "a1"; mkCookie "refreshToken" "r1";
     mkCookie "csrfToken" "c1"] "welcome").

(** A login answer that sets only the access token. *)
Definition loginAccessOnly : NetResult :=
  NetResponse (mkResponse 200 [mkCookie "accessToken" "a1"] "welcome").

(** A session acquired one minute before [testNow]. *)
Definition freshWorld : World :=
  mkWorld (mkAuthTokens "a0" "r0" "c0" (testNow - Minute)) 0 [].

(** A session acquired one hour before [testNow]. *)
Definition staleWorld : World :=
  mkWorld (mkAuthTokens "a0" "r0" "c0" (testNow - 60 * Minute)) 0 [].

(** The process before its first authentication. *)
Definition initialWorld : World := mkWorld authTokens0 0 [].

Definition testConfig : Config :=
  mkConfig "5008" "http://localhost:5007/api/v1" "admin@school-admin.com" "secret".

(** ** The calls of one fetch *)

(** The shapes the calls of the read phase can take, for the login
    request [login], the read URL [url] and the tokens [a] stored when the
    phase starts: nothing, the read alone, the read and a login, or the
    read, a login and one retried read. *)
Inductive ReadCalls (login : Request) (url : string) (a : AuthTokens)
  : list Request -> Prop :=
| NoCall : ReadCalls login url a []
| OneRead : ReadCalls login url a [studentRequest url a]
| ReadThenLogin : ReadCalls login url a [studentRequest url a; login]
| ReadLoginRetry (a2 : AuthTokens) :
    ReadCalls login url a [studentRequest url a; login; studentRequest url a2].


(** The replies the handler can write. *)
Definition knownReply (studentID : string) (reply : HttpReply) : Prop :=
  (exists pdfBytes, reply = pdfReply studentID pdfBytes)
  \/ reply = httpError "Invalid student ID" StatusBadRequest
  \/ reply = httpError "Error fetching student data" StatusInternalServerError
  \/ reply = httpError "Error generating PDF" StatusInternalServerError.

(** The record with its [SystemAccess] flag replaced. *)
Definition withSystemAccess (b : bool) (s : StudentDetail) : StudentDetail :=
  mkStudentDetail (ID s) (Name s) (Email s) b (Phone s) (Gender s) (DOB s)
    (Class_ s) (Section_ s) (Roll s) (FatherName s) (FatherPhone s)
    (MotherName s) (MotherPhone s) (GuardianName s) (GuardianPhone s)
    (RelationOfGuardian s) (CurrentAddress s) (PermanentAddress s)
    (AdmissionDate s) (ReporterName s).

(** Two lists of cookies carry the same values for the three session
    cookies. *)
Definition sameSessionCookies (cs1 cs2 : list Cookie) : Prop :=
  cookieOf "accessToken" cs1 = cookieOf "accessToken" cs2 /\
  cookieOf "refreshToken" cs1 = cookieOf "refreshToken" cs2 /\
  cookieOf "csrfToken" cs1 = cookieOf "csrfToken" cs2.

(** The scripted platform with no answers, on which [http.NewRequest]
    refuses every URL. *)
Definition refusingPlatform : Platform :=
  mkPlatform (upstream (scripted [])) (clock (scripted [])) (Getenv (scripted []))
    (jsonMarshalLogin (scripted [])) (decodeLogin (scripted []))
    (decodeStudent (scripted [])) (fun _ => false) (formatDate (scripted []))
    (pdfOutput (scripted [])).

Lemma isDigit_cases d :
  isDigit d ->
  d = 0 \/ d = 1 \/ d = 2 \/ d = 3 \/ d = 4 \/ d = 5 \/ d = 6 \/ d = 7 \/ d = 8 \/ d = 9.
Proof. unfold isDigit. lia. Qed.

Lemma digitChar_code d :
  isDigit d -> (Z.of_N (N_of_ascii (digitChar d)) - 48) mod 256 = d.
Proof.
  intros H. destruct (isDigit_cases d H) as [-> | [-> | [-> | [-> | [-> | [-> | [-> | [-> | [-> | ->]]]]]]]]];
    reflexivity.
Qed.

Lemma digitChar_not_sign d :
  isDigit d -> Ascii.eqb (digitChar d) "-" = false /\ Ascii.eqb (digitChar d) "+" = false.
Proof.
  intros H. destruct (isDigit_cases d H) as [-> | [-> | [-> | [-> | [-> | [-> | [-> | [-> | [-> | ->]]]]]]]]];
    split; reflexivity.
Qed.

(** A byte that survives the digit test is the character of its digit. *)
Lemma byte_is_digit ch :
  (9 <? (Z.of_N (N_of_ascii ch) - 48) mod 256) = false ->
  let d := (Z.of_N (N_of_ascii ch) - 48) mod 256 in
  isDigit d /\ ch = digitChar d.
Proof.
  intros H d. apply Z.ltb_ge in H. fold d in H.
  pose proof (N_ascii_bounded ch) as Hb.
  assert (Hx : 0 <= Z.of_N (N_of_ascii ch) < 256) by lia.
  assert (Hd : 0 <= d < 256) by (subst d; apply Z.mod_pos_bound; lia).
  assert (Hge : 48 <= Z.of_N (N_of_ascii ch)).
  { destruct (Z_lt_le_dec (Z.of_N (N_of_ascii ch)) 48) as [Hlt | Hle]; [ | exact Hle].
    exfalso.
    assert (E : d = Z.of_N (N_of_ascii ch) + 208).
    { subst d. symmetry. apply (Z.mod_unique _ _ (-1)); lia. }
    lia. }
  assert (E : d = Z.of_N (N_of_ascii ch) - 48).
  { subst d. apply Z.mod_small. lia. }
  split; [unfold isDigit; lia | ].
  unfold digitChar. rewrite E.
  replace (48 + (Z.of_N (N_of_ascii ch) - 48)) with (Z.of_N (N_of_ascii ch)) by lia.
  rewrite N2Z.id. symmetry. apply ascii_N_embedding.
Qed.

Lemma atoiDigits_sound s :
  forall acc n,
    atoiDigits s acc = Some n ->
    exists ds, Forall isDigit ds /\ s = renderDigits ds /\
               n = fold_left (fun a d => a * 10 + d) ds acc.
Proof.
  induction s as [ | ch rest IH]; intros acc n H; simpl in H.
  - exists []. inversion H. repeat split. constructor.
  - destruct (9 <? (Z.of_N (N_of_ascii ch) - 48) mod 256) eqn:Hd; [discriminate | ].
    destruct (byte_is_digit ch Hd) as [Hdig Hch].
    destruct (IH _ _ H) as (ds & Hall & Hs & Hn).
    exists ((Z.of_N (N_of_ascii ch) - 48) mod 256 :: ds).
    split; [constructor; assumption | ].
    split; [simpl; rewrite <- Hch, <- Hs; reflexivity | exact Hn].
Qed.

Lemma atoiDigits_complete ds :
  Forall isDigit ds ->
  forall acc,
    atoiDigits (renderDigits ds) acc = Some (fold_left (fun a d => a * 10 + d) ds acc).
Proof.
  induction 1 as [ | d ds Hd Hall IH]; intros acc; simpl.
  - reflexivity.
  - rewrite (digitChar_code d Hd).
    destruct (Z.ltb_spec 9 d) as [Hlt | _]; [unfold isDigit in Hd; lia | ].
    apply IH.
Qed.

(** [Atoi] computes the value of a decimal representation, and reports a
    range error when the value does not fit. *)
Lemma Atoi_of_decimal s n :
  DecimalOf s n ->
  Atoi s = if inIntRange n then Ok n else Err ErrRange.
Proof.
  intros (ds & Hne & Hall & Hs).
  destruct ds as [ | d ds]; [congruence | ].
  pose proof (Forall_inv Hall) as Hd.
  destruct (digitChar_not_sign d Hd) as [Hm Hp].
  pose proof (atoiDigits_complete (d :: ds) Hall 0) as Hc.
  destruct Hs as [[-> ->] | [[-> ->] | [-> ->]]].
  - unfold Atoi. cbn [renderDigits fold_right]. rewrite Hm, Hp. cbn [orb].
    cbn [renderDigits fold_right] in Hc. rewrite Hc. reflexivity.
  - unfold Atoi. change (Ascii.eqb "+" "-") with false.
    change (Ascii.eqb "+" "+") with true. cbn [orb].
    cbn [renderDigits fold_right] in Hc |- *. rewrite Hc. reflexivity.
  - unfold Atoi. change (Ascii.eqb "-" "-") with true. cbn [orb].
    cbn [renderDigits fold_right] in Hc |- *. rewrite Hc. reflexivity.
Qed.

Lemma Atoi_sound s n : Atoi s = Ok n -> DecimalOf s n.
Proof.
  unfold Atoi. destruct s as [ | c0 rest]; [discriminate | ].
  destruct (Ascii.eqb c0 "-") eqn:Hm; cbn [orb].
  - apply Ascii.eqb_eq in Hm. subst c0.
    destruct rest as [ | c1 rest']; [discriminate | ].
    destruct (atoiDigits (String c1 rest') 0) as [v | ] eqn:Hv; [ | discriminate].
    destruct (inIntRange _); [ | discriminate]. intros H. inversion H. subst n.
    destruct (atoiDigits_sound _ _ _ Hv) as (ds & Hall & Hs & Hn).
    exists ds. split; [destruct ds; [discriminate | congruence] | ].
    split; [assumption | ]. right. right. rewrite Hs, Hn. split; reflexivity.
  - destruct (Ascii.eqb c0 "+") eqn:Hp.
    + apply Ascii.eqb_eq in Hp. subst c0.
      destruct rest as [ | c1 rest']; [discriminate | ].
      destruct (atoiDigits (String c1 rest') 0) as [v | ] eqn:Hv; [ | discriminate].
      destruct (inIntRange _); [ | discriminate]. intros H. inversion H. subst n.
      destruct (atoiDigits_sound _ _ _ Hv) as (ds & Hall & Hs & Hn).
      exists ds. split; [destruct ds; [discriminate | congruence] | ].
      split; [assumption | ]. right. left. rewrite Hs, Hn. split; reflexivity.
    + destruct (atoiDigits (String c0 rest) 0) as [v | ] eqn:Hv; [ | discriminate].
      destruct (inIntRange _); [ | discriminate]. intros H. inversion H. subst n.
      destruct (atoiDigits_sound _ _ _ Hv) as (ds & Hall & Hs & Hn).
      exists ds. split; [destruct ds; [discriminate | congruence] | ].
      split; [assumption | ]. left. rewrite Hs, Hn. split; reflexivity.
Qed.

(** [Atoi] succeeds exactly on the decimal representations whose value
    fits the [int] type. *)
Lemma Atoi_iff s n : Atoi s = Ok n <-> DecimalOf s n /\ inIntRange n = true.
Proof.
  split.
  - intros H. pose proof (Atoi_sound s n H) as Hd. split; [exact Hd | ].
    rewrite (Atoi_of_decimal s n Hd) in H.
    destruct (inIntRange n); [reflexivity | discriminate].
  - intros [Hd Hr]. rewrite (Atoi_of_decimal s n Hd), Hr. reflexivity.
Qed.

(** An id the handler lets through is a decimal representation of a
    positive integer. *)
Lemma invalidID_false_positive s : invalidID s = false -> PositiveDecimal s.
Proof.
  unfold invalidID. destruct (Atoi s) as [id | e] eqn:Ha; [ | discriminate].
  intros H. apply Z.leb_gt in H. exists id. split; [apply Atoi_sound; exact Ha | exact H].
Qed.

Lemma invalidID_not_positive s : ~ PositiveDecimal s -> invalidID s = true.
Proof.
  intros H. destruct (invalidID s) eqn:E; [reflexivity | ].
  exfalso. apply H, invalidID_false_positive, E.
Qed.

(** A string on which [Atoi] reports a syntax error represents no
    integer. *)
Lemma syntax_error_not_decimal s :
  Atoi s = Err ErrSyntax -> ~ PositiveDecimal s.
Proof.
  intros Ha (n & Hd & _). rewrite (Atoi_of_decimal s n Hd) in Ha.
  destruct (inIntRange n); discriminate.
Qed.

Lemma nonpositive_not_decimal s n :
  Atoi s = Ok n -> n <= 0 -> ~ PositiveDecimal s.
Proof.
  intros Ha Hn (m & Hd & Hm). rewrite (Atoi_of_decimal s m Hd) in Ha.
  destruct (inIntRange m); [ | discriminate]. inversion Ha. lia.
Qed.

(** ** How the pieces of a fetch run *)

Section Runs.

Variable P : Platform.

(** One Authenticator run, case by case. *)
Lemma authenticate_run config w :
  authenticateWithBackend P config w =
  let login := loginRequest P config in
  match upstream P (List.length (trace w)) login with
  | NetError msg => Exited (FatalPost msg) (sent login w)
  | NetResponse resp =>
      if StatusCode resp =? StatusOK then
        let stored := storeCookies (Cookies resp) (authTokens w) in
        match decodeLogin P (Body resp) with
        | None => Exited FatalParse (withTokens stored (sent login w))
        | Some _ =>
            Returned tt (mkWorld (stampRefresh (clock P (ticks w)) stored)
                                 (S (ticks w)) (trace w ++ [login]))
        end
      else Exited (FatalStatus (StatusCode resp) (Body resp)) (sent login w)
  end.
Proof.
  unfold authenticateWithBackend, bind, clientDo. cbn zeta.
  destruct (upstream P (List.length (trace w)) (loginRequest P config)) as [msg | resp];
    [reflexivity | ].
  destruct (StatusCode resp =? StatusOK); cbn [negb]; [ | reflexivity].
  unfold modifyTokens. destruct (decodeLogin P (Body resp)); reflexivity.
Qed.

(** Whatever its outcome, a run makes exactly one upstream call, the
    login request. *)
Lemma authenticate_trace config w :
  trace (finalWorld (authenticateWithBackend P config w))
  = trace w ++ [loginRequest P config].
Proof.
  rewrite authenticate_run. cbn zeta.
  destruct (upstream P _ _) as [msg | resp]; [reflexivity | ].
  destruct (StatusCode resp =? StatusOK); [ | reflexivity].
  destruct (decodeLogin P (Body resp)); reflexivity.
Qed.

Lemma authenticate_returned_trace config w w' :
  authenticateWithBackend P config w = Returned tt w' ->
  trace w' = trace w ++ [loginRequest P config].
Proof.
  intros H. pose proof (authenticate_trace config w) as T.
  rewrite H in T. exact T.
Qed.

Lemma authenticate_exited_trace config w f w' :
  authenticateWithBackend P config w = Exited f w' ->
  trace w' = trace w ++ [loginRequest P config].
Proof.
  intros H. pose proof (authenticate_trace config w) as T.
  rewrite H in T. exact T.
Qed.

(** The freshness check reads the clock once and compares. *)
Lemma refreshIfStale_run w :
  refreshIfStale P w =
  if 14 * Minute <? timeSub (clock P (ticks w)) (lastRefresh (authTokens w))
  then authenticateWithBackend P (loadConfig P) (ticked w)
  else Returned tt (ticked w).
Proof.
  unfold refreshIfStale, bind, getTokens, timeSince, bind, timeNow, ret.
  destruct (14 * Minute <? _); reflexivity.
Qed.

Lemma fetch_after_check backendURL studentID w w1 :
  refreshIfStale P w = Returned tt w1 ->
  fetchStudentData P backendURL studentID w = readStudent P backendURL studentID w1.
Proof. intros H. unfold fetchStudentData, bind. rewrite H. reflexivity. Qed.

Lemma retryRequest_run url w :
  let read2 := studentRequest url (authTokens w) in
  retryRequest P url w
  = Returned (retryOutcome P (upstream P (List.length (trace w)) read2)) (sent read2 w).
Proof.
  unfold retryRequest, bind, getTokens, clientDo, retryOutcome, ret. cbn zeta.
  destruct (upstream P _ _) as [msg | resp]; [reflexivity | ].
  destruct (StatusCode resp =? StatusOK); reflexivity.
Qed.

Section FirstAnswer.

Variables (backendURL studentID : string) (w1 : World).

Let url := (backendURL ++ "/students/" ++ studentID)%string.
Let read1 := studentRequest url (authTokens w1).

Hypothesis url_ok : validURL P url = true.

(** The read request is answered with a response. *)
Variable resp : Response.
Hypothesis answered : upstream P (List.length (trace w1)) read1 = NetResponse resp.

Lemma read_unauthorized :
  StatusCode resp = StatusUnauthorized ->
  readStudent P backendURL studentID w1
  = bind (authenticateWithBackend P (loadConfig P)) (fun _ => retryRequest P url)
         (sent read1 w1).
Proof.
  intros Hs. unfold readStudent. fold url. rewrite url_ok. cbn [negb].
  unfold bind at 1. unfold getTokens. unfold bind at 1. unfold clientDo at 1.
  fold read1. rewrite answered, Hs. reflexivity.
Qed.

Lemma read_not_found :
  StatusCode resp = StatusNotFound ->
  readStudent P backendURL studentID w1
  = Returned (Err (ErrNotFound studentID)) (sent read1 w1).
Proof.
  intros Hs. unfold readStudent. fold url. rewrite url_ok. cbn [negb].
  unfold bind, getTokens, clientDo. fold read1. rewrite answered, Hs. reflexivity.
Qed.


Lemma read_other :
  StatusCode resp <> StatusUnauthorized ->
  StatusCode resp <> StatusNotFound ->
  StatusCode resp <> StatusOK ->
  readStudent P backendURL studentID w1
  = Returned (Err (ErrNon200 (StatusCode resp) (Body resp))) (sent read1 w1).
Proof.
  intros H1 H2 H3. unfold readStudent. fold url. rewrite url_ok. cbn [negb].
  unfold bind, getTokens, clientDo. fold read1. rewrite answered.
  apply Z.eqb_neq in H1, H2, H3. rewrite H1, H2, H3. reflexivity.
Qed.

(** After a 401 the fetch is the Authenticator followed by the single
    retry: either the process exits in the Authenticator, or the answer to
    the retried request decides the result. *)
Lemma read_after_401 :
  StatusCode resp = StatusUnauthorized ->
  readStudent P backendURL studentID w1 =
  match authenticateWithBackend P (loadConfig P) (sent read1 w1) with
  | Exited f w2 => Exited f w2
  | Returned _ w2 =>
      let read2 := studentRequest url (authTokens w2) in
      Returned (retryOutcome P (upstream P (List.length (trace w2)) read2))
               (sent read2 w2)
  end.
Proof.
  intros Hs. rewrite (read_unauthorized Hs). unfold bind.
  destruct (authenticateWithBackend P (loadConfig P) (sent read1 w1)) as [[] w2 | f w2];
    [ | reflexivity].
  apply retryRequest_run.
Qed.

End FirstAnswer.

Lemma skipn_app_exact {A} (l more : list A) :
  skipn (List.length l) (l ++ more) = more.
Proof.
  induction l as [ | x l IH]; [reflexivity | exact IH].
Qed.

End Runs.

(** ** The validation gate of the handler *)

(** C5.  A path id that is not a decimal representation of a positive
    integer is answered 400 by the handler, which leaves the process state
    as it was and makes no upstream call: the fetcher is never invoked. *)
Theorem invalid_id_rejected P config studentID w :
  ~ PositiveDecimal studentID ->
  generateReportHandler P config studentID w
    = Returned (httpError "Invalid student ID" StatusBadRequest) w
  /\ replyCode (httpError "Invalid student ID" StatusBadRequest) = 400
  /\ newCalls w (generateReportHandler P config studentID w) = [].
Proof.
  intros H. apply invalidID_not_positive in H.
  assert (E : generateReportHandler P config studentID w
              = Returned (httpError "Invalid student ID" StatusBadRequest) w).
  { unfold generateReportHandler. rewrite H. reflexivity. }
  split; [exact E | split; [reflexivity | ]].
  rewrite E. unfold newCalls. cbn [finalWorld].
  rewrite <- (app_nil_r (trace w)) at 2. apply skipn_app_exact.
Qed.

Lemma invalid_id_rejected_witness :
  generateReportHandler (scripted []) testConfig "invalid" initialWorld
    = Returned (httpError "Invalid student ID" StatusBadRequest) initialWorld
  /\ replyCode (httpError "Invalid student ID" StatusBadRequest) = 400
  /\ newCalls initialWorld
       (generateReportHandler (scripted []) testConfig "invalid" initialWorld) = [].
Proof.
  apply invalid_id_rejected.
  apply syntax_error_not_decimal. reflexivity.
Defined.

(** An explicit sign and leading zeros are part of a decimal
    representation: such an id passes the gate and is sent upstream as it
    was written. *)
Example signed_id_is_let_through :
  newCalls freshWorld
    (generateReportHandler (scripted [answer 200 "ada"]) testConfig "+01" freshWorld)
  = [studentRequest "http://localhost:5007/api/v1/students/+01"
       (authTokens freshWorld)].
Proof. reflexivity. Qed.

(** ** The freshness check *)

Lemma maxDuration_value : maxDuration = 9223372036854775807.
Proof. reflexivity. Qed.

Lemma minDuration_value : minDuration = -9223372036854775808.
Proof. reflexivity. Qed.

Lemma fourteen_minutes : 14 * Minute = 840000000000.
Proof. reflexivity. Qed.

(** Clamping the difference to a Duration does not change the comparison
    with 14 minutes. *)
Lemma stale_iff_age t u :
  (14 * Minute <? timeSub t u) = true <-> 14 * Minute < t - u.
Proof.
  rewrite Z.ltb_lt. unfold timeSub.
  rewrite fourteen_minutes, maxDuration_value, minDuration_value. cbn zeta.
  destruct (Z.ltb_spec 9223372036854775807 (t - u)); [lia | ].
  destruct (Z.ltb_spec (t - u) (-9223372036854775808)); lia.
Qed.

(** The calls [readStudent] adds: none when the URL is refused, otherwise
    the read request first. *)
Lemma readStudent_calls P backendURL studentID w :
  let url := (backendURL ++ "/students/" ++ studentID)%string in
  exists more,
    trace (finalWorld (readStudent P backendURL studentID w)) = trace w ++ more /\
    (more = [] \/ exists rest, more = studentRequest url (authTokens w) :: rest).
Proof.
  cbn zeta. unfold readStudent.
  destruct (validURL P _) eqn:Hv; cbn [negb].
  2:{ exists []. split; [cbn; rewrite app_nil_r; reflexivity | left; reflexivity]. }
  set (url := (backendURL ++ "/students/" ++ studentID)%string).
  set (read1 := studentRequest url (authTokens w)).
  unfold bind at 1. unfold getTokens. unfold bind at 1. unfold clientDo at 1.
  fold read1.
  destruct (upstream P (List.length (trace w)) read1) as [msg | resp].
  { exists [read1]. split; [reflexivity | right; exists []; reflexivity]. }
  destruct (StatusCode resp =? StatusUnauthorized).
  - unfold bind.
    pose proof (authenticate_trace P (loadConfig P) (sent read1 w)) as T.
    destruct (authenticateWithBackend P (loadConfig P) (sent read1 w)) as [[] w2 | f w2];
      cbn [finalWorld] in T.
    + rewrite retryRequest_run. cbn [finalWorld sent trace]. rewrite T.
      cbn [sent trace]. rewrite <- !app_assoc.
      eexists. split; [reflexivity | right; eexists; reflexivity].
    + cbn [finalWorld]. rewrite T. cbn [sent trace]. rewrite <- app_assoc.
      eexists. split; [reflexivity | right; eexists; reflexivity].
  - exists [read1].
    split; [ | right; exists []; reflexivity].
    destruct (StatusCode resp =? StatusNotFound); [reflexivity | ].
    destruct (StatusCode resp =? StatusOK); reflexivity.
Qed.

Lemma nth_error_app_here {A} (l : list A) x more :
  nth_error (l ++ x :: more) (List.length l) = Some x.
Proof. induction l as [ | y l IH]; [reflexivity | exact IH]. Qed.

Lemma nth_error_at_length {A} (l : list A) : nth_error l (List.length l) = None.
Proof. induction l as [ | y l IH]; [reflexivity | exact IH]. Qed.



(** At exactly 14 minutes the session is not refreshed: the first call
    is the read request. *)
Example fourteen_minutes_is_fresh :
  let w := mkWorld (mkAuthTokens "a0" "r0" "c0" (testNow - 14 * Minute)) 0 [] in
  newCalls w (fetchStudentData (scripted [answer 200 "ada"]) "http://b" "1" w)
  = [studentRequest "http://b/students/1" (authTokens w)].
Proof. reflexivity. Qed.

(** One nanosecond later it is. *)
Example past_fourteen_minutes_is_stale :
  let w := mkWorld (mkAuthTokens "a0" "r0" "c0" (testNow - 14 * Minute - 1)) 0 [] in
  let P := scripted [loginOK; answer 200 "ada"] in
  newCalls w (fetchStudentData P "http://b" "1" w)
  = [loginRequest P (loadConfig P);
     studentRequest "http://b/students/1"
       (mkAuthTokens "a1" "r1" "c1" (testNow + Second))].
Proof. reflexivity. Qed.

(** ** A first answer of 404 *)

(** C6.  When the first answer to the read request is 404, the fetch
    returns the not-found failure for that id at once: the read request is
    the last upstream call, so there is no retry and no
    re-authentication, and the stored session is untouched. *)
Theorem not_found_is_terminal P backendURL studentID w w1 resp :
  let url := (backendURL ++ "/students/" ++ studentID)%string in
  let read1 := studentRequest url (authTokens w1) in
  refreshIfStale P w = Returned tt w1 ->
  validURL P url = true ->
  upstream P (List.length (trace w1)) read1 = NetResponse resp ->
  StatusCode resp = StatusNotFound ->
  fetchStudentData P backendURL studentID w
    = Returned (Err (ErrNotFound studentID)) (sent read1 w1)
  /\ newCalls (sent read1 w1) (fetchStudentData P backendURL studentID w) = []
  /\ authTokens (sent read1 w1) = authTokens w1.
Proof.
  intros url read1 Hr Hv Ha Hs.
  assert (E : fetchStudentData P backendURL studentID w
              = Returned (Err (ErrNotFound studentID)) (sent read1 w1)).
  { rewrite (fetch_after_check P _ _ _ _ Hr).
    apply (read_not_found P backendURL studentID w1 Hv resp Ha Hs). }
  split; [exact E | split; [ | reflexivity]].
  rewrite E. unfold newCalls. cbn [finalWorld].
  rewrite <- (app_nil_r (trace (sent read1 w1))) at 2. apply skipn_app_exact.
Qed.

Lemma not_found_is_terminal_witness :
  let P := scripted [answer 404 "no such student"] in
  let read1 := studentRequest "http://b/students/9999" (authTokens (ticked freshWorld)) in
  fetchStudentData P "http://b" "9999" freshWorld
    = Returned (Err (ErrNotFound "9999")) (sent read1 (ticked freshWorld))
  /\ newCalls (sent read1 (ticked freshWorld))
       (fetchStudentData P "http://b" "9999" freshWorld) = []
  /\ authTokens (sent read1 (ticked freshWorld)) = authTokens (ticked freshWorld).
Proof.
  apply (not_found_is_terminal (scripted [answer 404 "no such student"])
           "http://b" "9999" freshWorld (ticked freshWorld)
           (mkResponse 404 [] "no such student"));
    reflexivity.
Defined.

(** ** A first answer of 401 *)

(** C1 (as amended).  When the first answer to the read request is 401,
    exactly one Authenticator run follows.  If that run succeeds, exactly
    one retried read request follows it and its answer alone decides the
    result of the fetch: nothing is sent after it, and a second 401 is
    returned as a failure. *)
Theorem one_reauth_then_one_retry P backendURL studentID w w1 resp :
  let url := (backendURL ++ "/students/" ++ studentID)%string in
  let read1 := studentRequest url (authTokens w1) in
  let login := loginRequest P (loadConfig P) in
  let o := fetchStudentData P backendURL studentID w in
  refreshIfStale P w = Returned tt w1 ->
  validURL P url = true ->
  upstream P (List.length (trace w1)) read1 = NetResponse resp ->
  StatusCode resp = StatusUnauthorized ->
  logins (newCalls (sent read1 w1) o) = 1%nat
  /\ forall w2,
       authenticateWithBackend P (loadConfig P) (sent read1 w1) = Returned tt w2 ->
       let read2 := studentRequest url (authTokens w2) in
       let r2 := upstream P (List.length (trace w2)) read2 in
       o = Returned (retryOutcome P r2) (sent read2 w2)
       /\ newCalls (sent read1 w1) o = [login; read2]
       /\ (forall resp2,
             r2 = NetResponse resp2 ->
             StatusCode resp2 = StatusUnauthorized ->
             retryOutcome P r2
             = Err (ErrNon200AfterRefresh StatusUnauthorized (Body resp2))).
Proof.
  intros url read1 login o Hr Hv Ha Hs.
  assert (E : o = readStudent P backendURL studentID w1)
    by (apply fetch_after_check; exact Hr).
  rewrite (read_after_401 P backendURL studentID w1 Hv resp Ha Hs) in E.
  fold url read1 in E.
  pose proof (authenticate_trace P (loadConfig P) (sent read1 w1)) as T.
  fold login in T.
  destruct (authenticateWithBackend P (loadConfig P) (sent read1 w1)) as [[] w2 | f w2];
    cbn [finalWorld] in T; cbn zeta in E.
  - assert (N : newCalls (sent read1 w1) o
                = [login; studentRequest url (authTokens w2)]).
    { rewrite E. unfold newCalls. cbn [finalWorld]. unfold sent at 2. cbn [trace].
      rewrite T, <- app_assoc. apply skipn_app_exact. }
    split; [rewrite N; reflexivity | ].
    intros w2' Hw. inversion Hw; subst w2'. cbn zeta.
    split; [exact E | split; [exact N | ]].
    intros resp2 H2 Hs2. rewrite H2. unfold retryOutcome. rewrite Hs2. reflexivity.
  - assert (N : newCalls (sent read1 w1) o = [login]).
    { rewrite E. unfold newCalls. cbn [finalWorld]. rewrite T. apply skipn_app_exact. }
    split; [rewrite N; reflexivity | intros w2' Hw; discriminate Hw].
Qed.

Lemma one_reauth_then_one_retry_witness :
  let P := scripted [answer 401 "expired"; loginOK; answer 401 "still expired"] in
  let w1 := ticked freshWorld in
  let url := "http://b/students/1" in
  let read1 := studentRequest url (authTokens w1) in
  let login := loginRequest P (loadConfig P) in
  let o := fetchStudentData P "http://b" "1" freshWorld in
  let w2 := mkWorld (mkAuthTokens "a1" "r1" "c1" (testNow + Second)) 2
                    [read1; login] in
  let read2 := studentRequest url (authTokens w2) in
  logins (newCalls (sent read1 w1) o) = 1%nat
  /\ o = Returned (Err (ErrNon200AfterRefresh 401 "still expired")) (sent read2 w2)
  /\ newCalls (sent read1 w1) o = [login; read2].
Proof.
  intros P w1 url read1 login o w2 read2.
  destruct (one_reauth_then_one_retry P "http://b" "1" freshWorld w1
              (mkResponse 401 [] "expired") eq_refl eq_refl eq_refl eq_refl)
    as [H1 H2].
  destruct (H2 w2 eq_refl) as (E & N & _).
  split; [exact H1 | split; [exact E | exact N]].
Defined.

(** The same run, evaluated: the second 401 is the result, after one
    login and one retried read. *)
Example second_401_is_final :
  let P := scripted [answer 401 "expired"; loginOK; answer 401 "still expired"] in
  let o := fetchStudentData P "http://b" "1" freshWorld in
  resultOf o = Some (Err (ErrNon200AfterRefresh 401 "still expired"))
  /\ logins (newCalls freshWorld o) = 1%nat
  /\ reads (newCalls freshWorld o) = 2%nat.
Proof. vm_compute. repeat split. Qed.

(** The claim as the specification words it fails: when the login made
    after the 401 is refused, the process exits and no retried request is
    ever sent. *)
Lemma retry_missing_when_login_refused :
  ~ AlwaysRetriesAfter401 (scripted [answer 401 "expired"; answer 500 "down"])
      "http://b" "1" freshWorld.
Proof.
  intros H.
  specialize (H (ticked freshWorld) (mkResponse 401 [] "expired")
                eq_refl eq_refl eq_refl eq_refl).
  vm_compute in H. destruct H as [_ H]. discriminate H.
Qed.

(** C10.  On the retried request only status 200 is a success: a 404
    there comes back as the generic non-200 failure of the retry, which is
    not the not-found failure a first 404 produces. *)
Theorem retry_accepts_only_200 P backendURL studentID w w1 resp w2 resp2 :
  let url := (backendURL ++ "/students/" ++ studentID)%string in
  let read1 := studentRequest url (authTokens w1) in
  let read2 := studentRequest url (authTokens w2) in
  let o := fetchStudentData P backendURL studentID w in
  refreshIfStale P w = Returned tt w1 ->
  validURL P url = true ->
  upstream P (List.length (trace w1)) read1 = NetResponse resp ->
  StatusCode resp = StatusUnauthorized ->
  authenticateWithBackend P (loadConfig P) (sent read1 w1) = Returned tt w2 ->
  upstream P (List.length (trace w2)) read2 = NetResponse resp2 ->
  (forall student, resultOf o = Some (Ok student) -> StatusCode resp2 = StatusOK)
  /\ (StatusCode resp2 = StatusNotFound ->
      resultOf o
      = Some (Err (ErrNon200AfterRefresh StatusNotFound (Body resp2))))
  /\ resultOf o <> Some (Err (ErrNotFound studentID)).
Proof.
  intros url read1 read2 o Hr Hv Ha Hs Hauth H2.
  assert (E : o = Returned (retryOutcome P (NetResponse resp2)) (sent read2 w2)).
  { unfold o. rewrite (fetch_after_check P _ _ _ _ Hr).
    rewrite (read_after_401 P backendURL studentID w1 Hv resp Ha Hs).
    fold url read1. rewrite Hauth. cbn zeta. fold read2. rewrite H2. reflexivity. }
  rewrite E. cbn [resultOf retryOutcome].
  destruct (Z.eqb_spec (StatusCode resp2) StatusOK) as [H200 | Hne].
  - split; [intros _ _; exact H200 | ].
    split; [intros H404; rewrite H404 in H200; discriminate | ].
    unfold decodeBody. destruct (decodeStudent P (Body resp2)); discriminate.
  - split; [intros student H; discriminate | ].
    split; [intros H404; rewrite H404; reflexivity | discriminate].
Qed.

Lemma retry_accepts_only_200_witness :
  let P := scripted [answer 401 "expired"; loginOK; answer 404 "gone"] in
  let o := fetchStudentData P "http://b" "1" freshWorld in
  (forall student, resultOf o = Some (Ok student) -> 404 = StatusOK)
  /\ (404 = StatusNotFound ->
      resultOf o = Some (Err (ErrNon200AfterRefresh StatusNotFound "gone")))
  /\ resultOf o <> Some (Err (ErrNotFound "1")).
Proof.
  exact (retry_accepts_only_200
           (scripted [answer 401 "expired"; loginOK; answer 404 "gone"])
           "http://b" "1" freshWorld (ticked freshWorld)
           (mkResponse 401 [] "expired")
           (mkWorld (mkAuthTokens "a1" "r1" "c1" (testNow + Second)) 2
                    [studentRequest "http://b/students/1" (authTokens freshWorld);
                     loginRequest (scripted []) (loadConfig (scripted []))])
           (mkResponse 404 [] "gone")
           eq_refl eq_refl eq_refl eq_refl eq_refl eq_refl).
Defined.

(** ** Answers with a 2xx status *)




(** ** The handler's status codes *)

Lemma generatePDF_run P student w :
  generatePDF P student w
  = Returned (pdfOutput P (pdfOps (formatDate P (clock P (ticks w))) student))
             (ticked w).
Proof. reflexivity. Qed.

(** C7.  Whenever the fetch fails, with the not-found failure or any
    other, the handler answers 500; a 200 answer is produced only when the
    fetch and the PDF generation both succeed. *)
Theorem fetch_failure_gives_500 P config studentID w :
  (invalidID studentID = false ->
   forall e w1,
     fetchStudentData P (BackendURL config) studentID w = Returned (Err e) w1 ->
     exists reply,
       generateReportHandler P config studentID w = Returned reply w1
       /\ replyCode reply = 500)
  /\ (forall reply w',
        generateReportHandler P config studentID w = Returned reply w' ->
        replyCode reply = 200 ->
        exists student w1 pdfBytes,
          fetchStudentData P (BackendURL config) studentID w
            = Returned (Ok student) w1
          /\ generatePDF P student w1 = Returned (Ok pdfBytes) w'
          /\ reply = pdfReply studentID pdfBytes).
Proof.
  split.
  - intros Hv e w1 Hf.
    exists (httpError "Error fetching student data" StatusInternalServerError).
    split; [ | reflexivity].
    unfold generateReportHandler. rewrite Hv. unfold bind. rewrite Hf. reflexivity.
  - intros reply w' Hh Hc. unfold generateReportHandler in Hh.
    destruct (invalidID studentID).
    { inversion Hh; subst. discriminate Hc. }
    unfold bind in Hh.
    destruct (fetchStudentData P (BackendURL config) studentID w)
      as [[student | e] w1 | f w1]; [ | | discriminate Hh].
    + rewrite generatePDF_run in Hh.
      destruct (pdfOutput P _) as [pdfBytes | msg] eqn:Ho.
      * exists student, w1, pdfBytes. inversion Hh; subst.
        rewrite generatePDF_run, Ho. repeat split.
      * inversion Hh; subst. discriminate Hc.
    + inversion Hh; subst. discriminate Hc.
Qed.

Lemma fetch_failure_gives_500_witness :
  exists reply,
    generateReportHandler (scripted [answer 404 "no such student"]) testConfig
      "9999" freshWorld
    = Returned reply
        (sent (studentRequest "http://localhost:5007/api/v1/students/9999"
                 (authTokens freshWorld)) (ticked freshWorld))
    /\ replyCode reply = 500.
Proof.
  exact (proj1 (fetch_failure_gives_500 (scripted [answer 404 "no such student"])
                  testConfig "9999" freshWorld)
               eq_refl (ErrNotFound "9999") _ eq_refl).
Defined.

(** ** Rendering *)



(** ** What an Authenticator run stores *)

Lemma storeCookie_lastRefresh a c : lastRefresh (storeCookie a c) = lastRefresh a.
Proof.
  unfold storeCookie.
  destruct (String.eqb (cookieName c) "accessToken"); [reflexivity | ].
  destruct (String.eqb (cookieName c) "refreshToken"); [reflexivity | ].
  destruct (String.eqb (cookieName c) "csrfToken"); reflexivity.
Qed.

Lemma storeCookie_access a c :
  accessToken (storeCookie a c)
  = if String.eqb (cookieName c) "accessToken" then cookieValue c else accessToken a.
Proof.
  unfold storeCookie.
  destruct (String.eqb (cookieName c) "accessToken"); [reflexivity | ].
  destruct (String.eqb (cookieName c) "refreshToken"); [reflexivity | ].
  destruct (String.eqb (cookieName c) "csrfToken"); reflexivity.
Qed.

Lemma storeCookie_refresh a c :
  refreshToken (storeCookie a c)
  = if String.eqb (cookieName c) "refreshToken" then cookieValue c else refreshToken a.
Proof.
  unfold storeCookie.
  destruct (String.eqb_spec (cookieName c) "accessToken") as [E | _].
  - rewrite E. reflexivity.
  - destruct (String.eqb (cookieName c) "refreshToken"); [reflexivity | ].
    destruct (String.eqb (cookieName c) "csrfToken"); reflexivity.
Qed.

Lemma storeCookie_csrf a c :
  csrfToken (storeCookie a c)
  = if String.eqb (cookieName c) "csrfToken" then cookieValue c else csrfToken a.
Proof.
  unfold storeCookie.
  destruct (String.eqb_spec (cookieName c) "accessToken") as [E | _].
  - rewrite E. reflexivity.
  - destruct (String.eqb_spec (cookieName c) "refreshToken") as [E | _].
    + rewrite E. reflexivity.
    + destruct (String.eqb (cookieName c) "csrfToken"); reflexivity.
Qed.

(** After the cookie loop each field holds the value of the last cookie
    of its name, or its previous value when there is none. *)
Lemma storeCookies_fields cookies :
  forall a,
    accessToken (storeCookies cookies a)
      = orKeep (cookieOf "accessToken" cookies) (accessToken a)
    /\ refreshToken (storeCookies cookies a)
      = orKeep (cookieOf "refreshToken" cookies) (refreshToken a)
    /\ csrfToken (storeCookies cookies a)
      = orKeep (cookieOf "csrfToken" cookies) (csrfToken a)
    /\ lastRefresh (storeCookies cookies a) = lastRefresh a.
Proof.
  induction cookies as [ | c rest IH]; intros a.
  - repeat split.
  - unfold storeCookies in *. cbn [fold_left cookieOf].
    destruct (IH (storeCookie a c)) as (Ha & Hr & Hc & Hl).
    rewrite Ha, Hr, Hc, Hl.
    rewrite storeCookie_access, storeCookie_refresh, storeCookie_csrf,
      storeCookie_lastRefresh.
    repeat split.
    + destruct (cookieOf "accessToken" rest); [reflexivity | ].
      destruct (String.eqb (cookieName c) "accessToken"); reflexivity.
    + destruct (cookieOf "refreshToken" rest); [reflexivity | ].
      destruct (String.eqb (cookieName c) "refreshToken"); reflexivity.
    + destruct (cookieOf "csrfToken" rest); [reflexivity | ].
      destruct (String.eqb (cookieName c) "csrfToken"); reflexivity.
Qed.

(** C2 (as amended).  A successful Authenticator run had a 200 login
    answer; afterwards each of the three tokens holds the value of the
    cookie of its name in that answer (the last one when repeated), or its
    previous value when the answer carries no such cookie, and the stamp is
    the clock reading of the run.  When the answer carries all three
    cookies the whole session is replaced by its values. *)
Theorem successful_login_stores_cookies P config w w' :
  authenticateWithBackend P config w = Returned tt w' ->
  exists resp,
    upstream P (List.length (trace w)) (loginRequest P config) = NetResponse resp
    /\ StatusCode resp = StatusOK
    /\ accessToken (authTokens w')
       = orKeep (cookieOf "accessToken" (Cookies resp)) (accessToken (authTokens w))
    /\ refreshToken (authTokens w')
       = orKeep (cookieOf "refreshToken" (Cookies resp)) (refreshToken (authTokens w))
    /\ csrfToken (authTokens w')
       = orKeep (cookieOf "csrfToken" (Cookies resp)) (csrfToken (authTokens w))
    /\ lastRefresh (authTokens w') = clock P (ticks w)
    /\ (forall a r c,
          cookieOf "accessToken" (Cookies resp) = Some a ->
          cookieOf "refreshToken" (Cookies resp) = Some r ->
          cookieOf "csrfToken" (Cookies resp) = Some c ->
          authTokens w' = mkAuthTokens a r c (clock P (ticks w))).
Proof.
  rewrite authenticate_run. cbn zeta.
  destruct (upstream P _ _) as [msg | resp]; [discriminate | ].
  destruct (Z.eqb_spec (StatusCode resp) StatusOK) as [Hs | _]; [ | discriminate].
  destruct (decodeLogin P (Body resp)); [ | discriminate].
  intros H. inversion H; subst w'. clear H. cbn [authTokens].
  destruct (storeCookies_fields (Cookies resp) (authTokens w)) as (Ha & Hr & Hc & _).
  exists resp. unfold stampRefresh. cbn [accessToken refreshToken csrfToken lastRefresh].
  repeat (split; [first [reflexivity | assumption] | ]).
  intros a r c Ea Er Ec. rewrite Ha, Hr, Hc, Ea, Er, Ec. reflexivity.
Qed.

Lemma successful_login_stores_cookies_witness :
  exists resp,
    upstream (scripted [loginOK]) 0 (loginRequest (scripted [loginOK]) testConfig)
      = NetResponse resp
    /\ StatusCode resp = StatusOK
    /\ "a1" = orKeep (cookieOf "accessToken" (Cookies resp)) "a0"
    /\ "r1" = orKeep (cookieOf "refreshToken" (Cookies resp)) "r0"
    /\ "c1" = orKeep (cookieOf "csrfToken" (Cookies resp)) "c0"
    /\ testNow = clock (scripted [loginOK]) 0
    /\ (forall a r c,
          cookieOf "accessToken" (Cookies resp) = Some a ->
          cookieOf "refreshToken" (Cookies resp) = Some r ->
          cookieOf "csrfToken" (Cookies resp) = Some c ->
          mkAuthTokens "a1" "r1" "c1" testNow
          = mkAuthTokens a r c (clock (scripted [loginOK]) 0)).
Proof.
  exact (successful_login_stores_cookies (scripted [loginOK]) testConfig staleWorld
           (mkWorld (mkAuthTokens "a1" "r1" "c1" testNow) 1
                    [loginRequest (scripted [loginOK]) testConfig])
           eq_refl).
Defined.

(** The claim as the specification words it fails: a login answer that
    sets only the access token leaves the old refresh and anti-forgery
    tokens next to the new access token. *)
Lemma partial_cookies_leave_mixture :
  ~ ReplacesWholeSession (scripted [loginAccessOnly]) testConfig staleWorld.
Proof.
  intros H.
  destruct (H (mkWorld (mkAuthTokens "a1" "r0" "c0" testNow) 1
                       [loginRequest (scripted [loginAccessOnly]) testConfig])
              eq_refl) as (resp & Hu & _ & Hr & _).
  vm_compute in Hu. inversion Hu; subst resp. vm_compute in Hr. discriminate Hr.
Qed.

Example mixture_after_partial_login :
  authenticateWithBackend (scripted [loginAccessOnly]) testConfig staleWorld
  = Returned tt (mkWorld (mkAuthTokens "a1" "r0" "c0" testNow) 1
                         [loginRequest (scripted [loginAccessOnly]) testConfig]).
Proof. reflexivity. Qed.

(** ** Authenticator failures *)

(** The read phase can only end the process through the Authenticator
    run that follows a 401. *)
Lemma readStudent_exits P backendURL studentID w1 f w' :
  let url := (backendURL ++ "/students/" ++ studentID)%string in
  let read1 := studentRequest url (authTokens w1) in
  readStudent P backendURL studentID w1 = Exited f w' ->
  validURL P url = true /\
  exists resp,
    upstream P (List.length (trace w1)) read1 = NetResponse resp /\
    StatusCode resp = StatusUnauthorized /\
    authenticateWithBackend P (loadConfig P) (sent read1 w1) = Exited f w'.
Proof.
  intros url read1. unfold readStudent. fold url.
  destruct (validURL P url); cbn [negb]; [ | discriminate].
  unfold bind at 1. unfold getTokens. unfold bind at 1. unfold clientDo at 1.
  fold read1.
  destruct (upstream P (List.length (trace w1)) read1) as [msg | resp];
    [discriminate | ].
  destruct (Z.eqb_spec (StatusCode resp) StatusUnauthorized) as [Hs | _].
  - unfold bind.
    destruct (authenticateWithBackend P (loadConfig P) (sent read1 w1))
      as [[] w2 | f2 w2].
    + rewrite retryRequest_run. discriminate.
    + intros H. inversion H; subst. split; [reflexivity | ].
      exists resp. repeat split. exact Hs.
  - destruct (StatusCode resp =? StatusNotFound); [discriminate | ].
    destruct (StatusCode resp =? StatusOK); discriminate.
Qed.

Lemma fetch_exits_iff P backendURL studentID w f w' :
  fetchStudentData P backendURL studentID w = Exited f w'
  <-> authFailsInFetch P backendURL studentID w f w'.
Proof.
  unfold authFailsInFetch, refreshFails, recoveryFails. split.
  - unfold fetchStudentData, bind.
    pose proof (refreshIfStale_run P w) as R.
    destruct (Z.ltb_spec (14 * Minute)
                (timeSub (clock P (ticks w)) (lastRefresh (authTokens w))))
      as [Hs | Hs].
    + destruct (refreshIfStale P w) as [[] w1 | f1 w1].
      * intros H. right.
        destruct (readStudent_exits P backendURL studentID w1 f w' H)
          as (Hv & resp & Hu & H401 & Ha).
        exists w1, resp. cbn zeta. rewrite R. repeat split; assumption.
      * intros H. inversion H; subst. left. split; [exact Hs | symmetry; exact R].
    + rewrite R. intros H. right.
      destruct (readStudent_exits P backendURL studentID (ticked w) f w' H)
        as (Hv & resp & Hu & H401 & Ha).
      exists (ticked w), resp. cbn zeta. repeat split; assumption.
  - intros [[Hs Ha] | (w1 & resp & Hr & Hv & Hu & H401 & Ha)].
    + unfold fetchStudentData, bind. rewrite refreshIfStale_run.
      apply Z.ltb_lt in Hs. rewrite Hs, Ha. reflexivity.
    + rewrite (fetch_after_check P _ _ _ _ Hr).
      rewrite (read_after_401 P backendURL studentID w1 Hv resp Hu H401).
      rewrite Ha. reflexivity.
Qed.

Lemma handler_exits_iff_fetch P config studentID w f w' :
  invalidID studentID = false ->
  (generateReportHandler P config studentID w = Exited f w'
   <-> fetchStudentData P (BackendURL config) studentID w = Exited f w').
Proof.
  intros Hv. unfold generateReportHandler. rewrite Hv. unfold bind.
  destruct (fetchStudentData P (BackendURL config) studentID w)
    as [[student | e] w1 | f1 w1].
  - rewrite generatePDF_run. destruct (pdfOutput P _); split; discriminate.
  - split; discriminate.
  - split; intros H; inversion H; reflexivity.
Qed.

(** X10.  A failure of the Authenticator ends the process at every place
    it is called from.  A request with a valid id terminates the process exactly
    when the Authenticator run triggered inside its fetch fails, whether
    that run is the freshness refresh or the recovery from a 401; the same
    holds for the run made at startup. *)
Lemma process_exits_iff_auth_fails P config studentID w f w' :
  invalidID studentID = false ->
  (generateReportHandler P config studentID w = Exited f w'
   <-> authFailsInFetch P (BackendURL config) studentID w f w')
  /\ (startup P w = Exited f w'
      <-> authenticateWithBackend P (loadConfig P) w = Exited f w').
Proof.
  intros Hv. split.
  - rewrite (handler_exits_iff_fetch P config studentID w f w' Hv).
    apply fetch_exits_iff.
  - unfold startup, bind.
    destruct (authenticateWithBackend P (loadConfig P) w) as [[] w1 | f1 w1].
    + split; discriminate.
    + split; intros H; inversion H; reflexivity.
Qed.

(** C3.  The code at two requests the claim covers.  With the upstream
    unreachable, a request that finds a fresh session fails in its read
    request and is answered 500, while the same request with a stale
    session fails in the freshness refresh and terminates the process
    without a reply.  A refused login during the recovery from a 401
    terminates the process as well. *)
Theorem auth_failure_in_request_exits :
  generateReportHandler (scripted []) testConfig "1" freshWorld
    = Returned (httpError "Error fetching student data" StatusInternalServerError)
        (sent (studentRequest "http://localhost:5007/api/v1/students/1"
                 (authTokens freshWorld)) (ticked freshWorld))
  /\ generateReportHandler (scripted []) testConfig "1" staleWorld
    = Exited (FatalPost "connection refused")
        (sent (loginRequest (scripted []) (loadConfig (scripted [])))
              (ticked staleWorld))
  /\ hasExited (generateReportHandler
                  (scripted [answer 401 "expired"; answer 500 "down"])
                  testConfig "1" freshWorld) = true.
Proof. repeat split. Qed.

(** A request never terminating the process is therefore not a property
    of the code. *)
Lemma refused_login_exits_during_request :
  ~ RequestNeverExits (scripted [answer 401 "expired"; answer 500 "down"])
      testConfig "1" freshWorld.
Proof. unfold RequestNeverExits. vm_compute. discriminate. Qed.

(** ** A whole run of the service *)

(** Startup, then a request for id 1 whose first answer is 401: the
    document is served and the store holds the new session. *)
Example reauthenticated_report :
  let P := scripted [loginOK; answer 401 "expired"; loginOK; answer 200 "ada"] in
  match main P ["1"] initialWorld with
  | Returned [reply] w =>
      replyCode reply = 200
      /\ accessToken (authTokens w) = "a1"
      /\ logins (trace w) = 2%nat /\ reads (trace w) = 2%nat
  | _ => False
  end.
Proof. vm_compute. repeat split. Qed.

(** * Further properties of the service *)

(** ** The read phase, case by case *)

Lemma readStudent_run P backendURL studentID w :
  let url := (backendURL ++ "/students/" ++ studentID)%string in
  let read1 := studentRequest url (authTokens w) in
  readStudent P backendURL studentID w =
  if validURL P url then
    match upstream P (List.length (trace w)) read1 with
    | NetError msg => Returned (Err (ErrMakingRequest msg)) (sent read1 w)
    | NetResponse resp =>
        if StatusCode resp =? StatusUnauthorized then
          match authenticateWithBackend P (loadConfig P) (sent read1 w) with
          | Exited f w2 => Exited f w2
          | Returned _ w2 =>
              let read2 := studentRequest url (authTokens w2) in
              Returned (retryOutcome P (upstream P (List.length (trace w2)) read2))
                       (sent read2 w2)
          end
        else if StatusCode resp =? StatusNotFound then
          Returned (Err (ErrNotFound studentID)) (sent read1 w)
        else if StatusCode resp =? StatusOK then
          Returned (decodeBody P resp) (sent read1 w)
        else
          Returned (Err (ErrNon200 (StatusCode resp) (Body resp))) (sent read1 w)
    end
  else Returned (Err ErrCreatingRequest) w.
Proof.
  cbn zeta. unfold readStudent.
  destruct (validURL P _) eqn:Hv; cbn [negb]; [ | reflexivity].
  set (url := (backendURL ++ "/students/" ++ studentID)%string) in *.
  set (read1 := studentRequest url (authTokens w)).
  unfold bind at 1. unfold getTokens. unfold bind at 1. unfold clientDo at 1.
  fold read1.
  destruct (upstream P (List.length (trace w)) read1) as [msg | resp] eqn:Hu;
    [reflexivity | ].
  destruct (Z.eqb_spec (StatusCode resp) StatusUnauthorized) as [Hs | _].
  - pose proof (read_after_401 P backendURL studentID w Hv resp Hu Hs) as R.
    unfold readStudent in R. fold url in R. rewrite Hv in R. cbn [negb] in R.
    unfold bind at 1 in R. unfold getTokens in R. unfold bind at 1 in R.
    unfold clientDo at 1 in R. fold read1 in R. rewrite Hu in R.
    apply Z.eqb_eq in Hs. rewrite Hs in R. exact R.
  - destruct (StatusCode resp =? StatusNotFound); [reflexivity | ].
    destruct (StatusCode resp =? StatusOK); reflexivity.
Qed.

Lemma not_stale_fetch P backendURL studentID w :
  (14 * Minute <? timeSub (clock P (ticks w)) (lastRefresh (authTokens w))) = false ->
  fetchStudentData P backendURL studentID w
  = readStudent P backendURL studentID (ticked w).
Proof.
  intros H. apply fetch_after_check. rewrite refreshIfStale_run, H. reflexivity.
Qed.

Lemma logins_app l1 l2 : logins (l1 ++ l2) = (logins l1 + logins l2)%nat.
Proof. unfold logins. rewrite filter_app, length_app. reflexivity. Qed.

Lemma reads_app l1 l2 : reads (l1 ++ l2) = (reads l1 + reads l2)%nat.
Proof. unfold reads. rewrite filter_app, length_app. reflexivity. Qed.

Lemma newCalls_of_trace {A} (w : World) (o : Outcome A) more :
  trace (finalWorld o) = trace w ++ more -> newCalls w o = more.
Proof. intros H. unfold newCalls. rewrite H. apply skipn_app_exact. Qed.

(** What the read phase adds to the trace, and that it leaves the store
    alone unless it logs in. *)
Lemma readStudent_outline P backendURL studentID w :
  let url := (backendURL ++ "/students/" ++ studentID)%string in
  let o := readStudent P backendURL studentID w in
  exists mid,
    trace (finalWorld o) = trace w ++ mid
    /\ ReadCalls (loginRequest P (loadConfig P)) url (authTokens w) mid
    /\ (logins mid = 0%nat -> authTokens (finalWorld o) = authTokens w)
    /\ (validURL P url = false -> mid = []).
Proof.
  cbn zeta. rewrite readStudent_run. cbn zeta.
  set (url := (backendURL ++ "/students/" ++ studentID)%string).
  set (read1 := studentRequest url (authTokens w)).
  destruct (validURL P url).
  2:{ exists []. cbn [finalWorld]. rewrite app_nil_r.
      repeat split; constructor. }
  destruct (upstream P (List.length (trace w)) read1) as [msg | resp].
  { exists [read1]. repeat split; try constructor. discriminate. }
  destruct (StatusCode resp =? StatusUnauthorized).
  - pose proof (authenticate_trace P (loadConfig P) (sent read1 w)) as T.
    destruct (authenticateWithBackend P (loadConfig P) (sent read1 w)) as [[] w2 | f w2];
      cbn [finalWorld] in T |- *.
    + exists [read1; loginRequest P (loadConfig P); studentRequest url (authTokens w2)].
      split; [cbn [sent trace]; rewrite T; cbn [sent trace];
              rewrite <- !app_assoc; reflexivity | ].
      split; [constructor | split; discriminate].
    + exists [read1; loginRequest P (loadConfig P)].
      split; [rewrite T; cbn [sent trace]; rewrite <- app_assoc; reflexivity | ].
      split; [constructor | split; discriminate].
  - assert (G : forall r : Result FetchError StudentDetail, exists mid,
               trace (finalWorld (Returned r (sent read1 w))) = trace w ++ mid
               /\ ReadCalls (loginRequest P (loadConfig P)) url (authTokens w) mid
               /\ (logins mid = 0%nat ->
                   authTokens (finalWorld (Returned r (sent read1 w))) = authTokens w)
               /\ (true = false -> mid = [])).
    { intros r. exists [read1]. repeat split; try constructor. discriminate. }
    destruct (StatusCode resp =? StatusNotFound); [apply G | ].
    destruct (StatusCode resp =? StatusOK); apply G.
Qed.

(** The same for a whole fetch: an optional login for the freshness
    refresh, then the calls of the read phase. *)
Lemma fetch_outline P backendURL studentID w :
  let url := (backendURL ++ "/students/" ++ studentID)%string in
  let login := loginRequest P (loadConfig P) in
  let o := fetchStudentData P backendURL studentID w in
  exists pre mid a,
    trace (finalWorld o) = trace w ++ pre ++ mid
    /\ (pre = [] \/ pre = [login])
    /\ ReadCalls login url a mid
    /\ (logins (pre ++ mid) = 0%nat -> authTokens (finalWorld o) = authTokens w)
    /\ (validURL P url = false -> mid = []).
Proof.
  cbn zeta. unfold fetchStudentData, bind. rewrite refreshIfStale_run.
  destruct (14 * Minute <? timeSub (clock P (ticks w)) (lastRefresh (authTokens w))).
  - pose proof (authenticate_trace P (loadConfig P) (ticked w)) as T.
    destruct (authenticateWithBackend P (loadConfig P) (ticked w)) as [[] w1 | f w1];
      cbn [finalWorld] in T.
    + destruct (readStudent_outline P backendURL studentID w1)
        as (mid & Hm & Hshape & _ & Hinv).
      exists [loginRequest P (loadConfig P)], mid, (authTokens w1).
      split; [rewrite Hm, T; cbn [ticked trace]; rewrite <- app_assoc; reflexivity | ].
      split; [right; reflexivity | split; [exact Hshape | split; [ | exact Hinv]]].
      rewrite logins_app. discriminate.
    + exists [loginRequest P (loadConfig P)], [], (authTokens w).
      cbn [finalWorld]. rewrite T. cbn [ticked trace].
      split; [reflexivity | split; [right; reflexivity | ]].
      split; [constructor | split; [discriminate | reflexivity]].
  - destruct (readStudent_outline P backendURL studentID (ticked w))
      as (mid & Hm & Hshape & Hkeep & Hinv).
    exists [], mid, (authTokens w).
    split; [exact Hm | split; [left; reflexivity | ]].
    split; [exact Hshape | split; [exact Hkeep | exact Hinv]].
Qed.

(** The handler adds the calls of its fetch and nothing else, and its
    final store is that of the fetch. *)
Lemma handler_follows_fetch P config studentID w :
  invalidID studentID = false ->
  let o := generateReportHandler P config studentID w in
  let fo := fetchStudentData P (BackendURL config) studentID w in
  trace (finalWorld o) = trace (finalWorld fo)
  /\ authTokens (finalWorld o) = authTokens (finalWorld fo).
Proof.
  intros Hv. cbn zeta. unfold generateReportHandler. rewrite Hv. unfold bind.
  destruct (fetchStudentData P (BackendURL config) studentID w)
    as [[student | e] w1 | f w1].
  - rewrite generatePDF_run. destruct (pdfOutput P _); split; reflexivity.
  - split; reflexivity.
  - split; reflexivity.
Qed.

Lemma handler_outline P config studentID w :
  let url := (BackendURL config ++ "/students/" ++ studentID)%string in
  let login := loginRequest P (loadConfig P) in
  let o := generateReportHandler P config studentID w in
  exists pre mid a,
    newCalls w o = pre ++ mid
    /\ (pre = [] \/ pre = [login])
    /\ ReadCalls login url a mid
    /\ (logins (pre ++ mid) = 0%nat -> authTokens (finalWorld o) = authTokens w).
Proof.
  cbn zeta. destruct (invalidID studentID) eqn:Hv.
  - exists [], [], (authTokens w).
    unfold generateReportHandler. rewrite Hv.
    split; [apply newCalls_of_trace; cbn; rewrite app_nil_r; reflexivity | ].
    split; [left; reflexivity | split; [constructor | reflexivity]].
  - destruct (handler_follows_fetch P config studentID w Hv) as [Ht Ha].
    destruct (fetch_outline P (BackendURL config) studentID w)
      as (pre & mid & a & Hm & Hpre & Hshape & Hkeep & _).
    exists pre, mid, a.
    split; [apply newCalls_of_trace; rewrite Ht; exact Hm | ].
    split; [exact Hpre | split; [exact Hshape | ]].
    intros H. rewrite Ha. apply Hkeep, H.
Qed.

(** ** Configuration *)

(** X1.  [getEnv] returns the default exactly when the variable is unset
    or set to the empty string, and the variable's value otherwise; since
    every default of [loadConfig] is non-empty, no field of the loaded
    configuration is ever empty. *)
Theorem config_is_never_empty P :
  (forall key d, Getenv P key = "" -> getEnv P key d = d)
  /\ (forall key d, Getenv P key <> "" -> getEnv P key d = Getenv P key)
  /\ Port (loadConfig P) <> ""
  /\ BackendURL (loadConfig P) <> ""
  /\ AdminEmail (loadConfig P) <> ""
  /\ AdminPassword (loadConfig P) <> "".
Proof.
  assert (G : forall key d, d <> "" -> getEnv P key d <> "").
  { intros key d Hd. unfold getEnv.
    destruct (String.eqb_spec (Getenv P key) ""); assumption. }
  split; [ | split].
  - intros key d H. unfold getEnv. rewrite H. reflexivity.
  - intros key d H. unfold getEnv.
    destruct (String.eqb_spec (Getenv P key) ""); [contradiction | reflexivity].
  - unfold loadConfig. cbn [Port BackendURL AdminEmail AdminPassword].
    repeat split; apply G; discriminate.
Qed.

(** ** The validation gate, both ways *)

Lemma gate_open_iff s :
  invalidID s = false <-> exists n, DecimalOf s n /\ 0 < n <= maxInt.
Proof.
  unfold invalidID. split.
  - destruct (Atoi s) as [id | e] eqn:Ha; [ | discriminate].
    intros H. apply Z.leb_gt in H. apply Atoi_iff in Ha. destruct Ha as [Hd Hr].
    exists id. split; [exact Hd | ]. unfold inIntRange in Hr.
    apply andb_prop in Hr. destruct Hr as [_ Hr]. apply Z.leb_le in Hr. lia.
  - intros (n & Hd & Hn).
    assert (Hr : inIntRange n = true).
    { unfold inIntRange. apply andb_true_intro.
      split; [apply Z.leb_le; unfold minInt, intSize; cbn; lia | apply Z.leb_le; lia]. }
    rewrite (proj2 (Atoi_iff s n) (conj Hd Hr)). apply Z.leb_gt. lia.
Qed.

(** X2.  The handler answers 400 exactly for the ids that are not a
    decimal representation of an integer between 1 and the largest [int]:
    a syntactically valid positive number that overflows [int] is rejected
    like a malformed one, and every id in range goes on to the fetch. *)
Theorem bad_request_iff_not_positive_int P config studentID w :
  (exists reply w',
     generateReportHandler P config studentID w = Returned reply w'
     /\ replyCode reply = 400)
  <-> ~ (exists n, DecimalOf studentID n /\ 0 < n <= maxInt).
Proof.
  rewrite <- gate_open_iff. split.
  - intros (reply & w' & Hh & Hc) Hv.
    unfold generateReportHandler in Hh. rewrite Hv in Hh. unfold bind in Hh.
    destruct (fetchStudentData P (BackendURL config) studentID w)
      as [[student | e] w1 | f w1]; [ | | discriminate Hh].
    + rewrite generatePDF_run in Hh.
      destruct (pdfOutput P _); inversion Hh; subst; discriminate Hc.
    + inversion Hh; subst. discriminate Hc.
  - intros Hv. destruct (invalidID studentID) eqn:E; [ | congruence].
    exists (httpError "Invalid student ID" StatusBadRequest), w.
    unfold generateReportHandler. rewrite E. split; reflexivity.
Qed.

(** ** The upstream calls of one request *)

Ltac read_calls_cases Hpre Hshape :=
  destruct Hpre as [-> | ->]; destruct Hshape.

(** X3.  Whatever the upstream answers, one request makes at most two
    login calls and at most two read calls: the freshness refresh, the
    read, one re-authentication and one retry. *)
Theorem request_calls_are_bounded P config studentID w :
  let o := generateReportHandler P config studentID w in
  (logins (newCalls w o) <= 2)%nat /\ (reads (newCalls w o) <= 2)%nat.
Proof.
  cbn zeta.
  destruct (handler_outline P config studentID w)
    as (pre & mid & a & Hn & Hpre & Hshape & _).
  rewrite Hn. read_calls_cases Hpre Hshape; cbn; split; lia.
Qed.


(** X5.  The stored session changes only through a login: a request
    that makes no login call leaves all three tokens and the stamp as they
    were, whatever its read request is answered. *)
Theorem store_changes_only_through_login P config studentID w :
  let o := generateReportHandler P config studentID w in
  logins (newCalls w o) = 0%nat ->
  authTokens (finalWorld o) = authTokens w.
Proof.
  cbn zeta. intros H.
  destruct (handler_outline P config studentID w)
    as (pre & mid & a & Hn & _ & _ & Hkeep).
  apply Hkeep. rewrite <- Hn. exact H.
Qed.

Lemma store_changes_only_through_login_witness :
  authTokens (finalWorld (generateReportHandler
                            (scripted [answer 503 "busy"]) testConfig "7" freshWorld))
  = authTokens freshWorld.
Proof.
  apply (store_changes_only_through_login (scripted [answer 503 "busy"])
           testConfig "7" freshWorld).
  reflexivity.
Defined.

(** ** Failures of the first read request *)

(** X6.  A transport error on the first read request (the 10 second
    timeout included) is returned as the fetch's error with the
    transport's message; the request is not retried, no login follows and
    the store is untouched. *)
Theorem transport_error_is_terminal P backendURL studentID w w1 msg :
  let url := (backendURL ++ "/students/" ++ studentID)%string in
  let read1 := studentRequest url (authTokens w1) in
  let o := fetchStudentData P backendURL studentID w in
  refreshIfStale P w = Returned tt w1 ->
  validURL P url = true ->
  upstream P (List.length (trace w1)) read1 = NetError msg ->
  o = Returned (Err (ErrMakingRequest msg)) (sent read1 w1)
  /\ newCalls (sent read1 w1) o = [].
Proof.
  intros url read1 o Hr Hv Hu.
  assert (E : o = Returned (Err (ErrMakingRequest msg)) (sent read1 w1)).
  { unfold o. rewrite (fetch_after_check P _ _ _ _ Hr), readStudent_run.
    cbn zeta. fold url read1. rewrite Hv, Hu. reflexivity. }
  split; [exact E | ].
  apply newCalls_of_trace. rewrite E. cbn [finalWorld]. rewrite app_nil_r. reflexivity.
Qed.

Lemma transport_error_is_terminal_witness :
  let P := scripted [] in
  let read1 := studentRequest "http://b/students/1" (authTokens (ticked freshWorld)) in
  let o := fetchStudentData P "http://b" "1" freshWorld in
  o = Returned (Err (ErrMakingRequest "connection refused"))
        (sent read1 (ticked freshWorld))
  /\ newCalls (sent read1 (ticked freshWorld)) o = [].
Proof.
  exact (transport_error_is_terminal (scripted []) "http://b" "1" freshWorld
           (ticked freshWorld) "connection refused" eq_refl eq_refl eq_refl).
Defined.

(** X7.  A first answer whose status is none of 200, 401 and 404 is
    returned as the non-200 error carrying that status and the answer's
    body; the request is not retried and no login follows. *)
Theorem other_status_is_terminal P backendURL studentID w w1 resp :
  let url := (backendURL ++ "/students/" ++ studentID)%string in
  let read1 := studentRequest url (authTokens w1) in
  let o := fetchStudentData P backendURL studentID w in
  refreshIfStale P w = Returned tt w1 ->
  validURL P url = true ->
  upstream P (List.length (trace w1)) read1 = NetResponse resp ->
  StatusCode resp <> StatusOK ->
  StatusCode resp <> StatusUnauthorized ->
  StatusCode resp <> StatusNotFound ->
  o = Returned (Err (ErrNon200 (StatusCode resp) (Body resp))) (sent read1 w1)
  /\ newCalls (sent read1 w1) o = [].
Proof.
  intros url read1 o Hr Hv Hu H200 H401 H404.
  assert (E : o = Returned (Err (ErrNon200 (StatusCode resp) (Body resp)))
                           (sent read1 w1)).
  { unfold o. rewrite (fetch_after_check P _ _ _ _ Hr).
    apply (read_other P backendURL studentID w1 Hv resp Hu H401 H404 H200). }
  split; [exact E | ].
  apply newCalls_of_trace. rewrite E. cbn [finalWorld]. rewrite app_nil_r. reflexivity.
Qed.

Lemma other_status_is_terminal_witness :
  let P := scripted [answer 503 "busy"] in
  let read1 := studentRequest "http://b/students/1" (authTokens (ticked freshWorld)) in
  let o := fetchStudentData P "http://b" "1" freshWorld in
  o = Returned (Err (ErrNon200 503 "busy")) (sent read1 (ticked freshWorld))
  /\ newCalls (sent read1 (ticked freshWorld)) o = [].
Proof.
  apply (other_status_is_terminal (scripted [answer 503 "busy"]) "http://b" "1"
           freshWorld (ticked freshWorld) (mkResponse 503 [] "busy")
           eq_refl eq_refl eq_refl);
    discriminate.
Defined.

(** X8.  When [http.NewRequest] refuses the URL, no read request is
    ever sent, and a fetch that returns does so with the request-creation
    error; the freshness refresh has already run by then. *)
Theorem refused_url_sends_no_read P backendURL studentID w :
  let url := (backendURL ++ "/students/" ++ studentID)%string in
  let o := fetchStudentData P backendURL studentID w in
  validURL P url = false ->
  reads (newCalls w o) = 0%nat
  /\ (forall r w', o = Returned r w' -> r = Err ErrCreatingRequest).
Proof.
  intros url o Hv. split.
  - destruct (fetch_outline P backendURL studentID w)
      as (pre & mid & a & Hm & Hpre & _ & _ & Hinv).
    rewrite (newCalls_of_trace w o _ Hm), (Hinv Hv).
    destruct Hpre as [-> | ->]; reflexivity.
  - intros r w' H. unfold o, fetchStudentData, bind in H.
    destruct (refreshIfStale P w) as [[] w1 | f w1]; [ | discriminate H].
    rewrite readStudent_run in H. cbn zeta in H. fold url in H. rewrite Hv in H.
    inversion H. reflexivity.
Qed.

Lemma refused_url_sends_no_read_witness :
  let o := fetchStudentData refusingPlatform "http://b" "1" staleWorld in
  reads (newCalls staleWorld o) = 0%nat
  /\ (forall r w', o = Returned r w' -> r = Err ErrCreatingRequest).
Proof.
  exact (refused_url_sends_no_read refusingPlatform "http://b" "1" staleWorld
           eq_refl).
Defined.

(** ** The replies of the handler *)

(** X9.  A reply of the handler is the PDF reply or one of three fixed
    plain-text errors, with code 200, 400 or 500: no part of an upstream
    answer and no detail of an internal error reaches the client. *)
Theorem replies_are_fixed P config studentID w reply w' :
  generateReportHandler P config studentID w = Returned reply w' ->
  knownReply studentID reply
  /\ (replyCode reply = 200 \/ replyCode reply = 400 \/ replyCode reply = 500)
  /\ (replyCode reply <> 200 ->
      replyHeader reply = [("Content-Type", "text/plain; charset=utf-8");
                           ("X-Content-Type-Options", "nosniff")]).
Proof.
  unfold generateReportHandler, knownReply.
  destruct (invalidID studentID).
  { intros H. inversion H; subst. cbn. intuition congruence. }
  unfold bind.
  destruct (fetchStudentData P (BackendURL config) studentID w)
    as [[student | e] w1 | f w1]; [ | | discriminate].
  - rewrite generatePDF_run.
    destruct (pdfOutput P _) as [pdfBytes | msg]; intros H; inversion H; subst; cbn.
    + split; [left; exists pdfBytes; reflexivity | ].
      split; [left; reflexivity | intros C; contradiction C; reflexivity].
    + intuition congruence.
  - intros H. inversion H; subst. cbn. intuition congruence.
Qed.

Lemma replies_are_fixed_witness :
  let reply := httpError "Error fetching student data" StatusInternalServerError in
  knownReply "1" reply
  /\ (replyCode reply = 200 \/ replyCode reply = 400 \/ replyCode reply = 500)
  /\ (replyCode reply <> 200 ->
      replyHeader reply = [("Content-Type", "text/plain; charset=utf-8");
                           ("X-Content-Type-Options", "nosniff")]).
Proof.
  exact (replies_are_fixed (scripted [answer 503 "secret upstream detail"])
           testConfig "1" freshWorld _ _ eq_refl).
Defined.

(** ** When a request ends the process *)

Lemma process_exits_iff_auth_fails_witness :
  let P := scripted [answer 401 "expired"; answer 500 "down"] in
  let w' := mkWorld (authTokens freshWorld) 1
              [studentRequest "http://localhost:5007/api/v1/students/1"
                 (authTokens freshWorld);
               loginRequest P (loadConfig P)] in
  (generateReportHandler P testConfig "1" freshWorld
     = Exited (FatalStatus 500 "down") w'
   <-> authFailsInFetch P (BackendURL testConfig) "1" freshWorld
         (FatalStatus 500 "down") w')
  /\ (startup P freshWorld = Exited (FatalStatus 500 "down") w'
      <-> authenticateWithBackend P (loadConfig P) freshWorld
          = Exited (FatalStatus 500 "down") w').
Proof.
  exact (process_exits_iff_auth_fails
           (scripted [answer 401 "expired"; answer 500 "down"])
           testConfig "1" freshWorld (FatalStatus 500 "down") _ eq_refl).
Defined.

(** ** The store after a login *)

Lemma authTokens_ext a b :
  accessToken a = accessToken b ->
  refreshToken a = refreshToken b ->
  csrfToken a = csrfToken b ->
  lastRefresh a = lastRefresh b ->
  a = b.
Proof. destruct a, b. cbn. intros -> -> -> ->. reflexivity. Qed.

(** X11.  A login that fails never moves the freshness stamp.  When it
    fails because the request got no answer or a non-200 answer, the store
    is untouched; when it fails because the body of a 200 answer does not
    parse, the cookies of that answer have already been written to the
    store. *)
Theorem failed_login_and_the_store P config w f w' :
  authenticateWithBackend P config w = Exited f w' ->
  lastRefresh (authTokens w') = lastRefresh (authTokens w)
  /\ (f <> FatalParse -> authTokens w' = authTokens w)
  /\ (f = FatalParse ->
      exists resp,
        upstream P (List.length (trace w)) (loginRequest P config) = NetResponse resp
        /\ StatusCode resp = StatusOK
        /\ authTokens w' = storeCookies (Cookies resp) (authTokens w)).
Proof.
  rewrite authenticate_run. cbn zeta.
  destruct (upstream P _ _) as [msg | resp].
  { intros H. inversion H; subst. cbn. repeat split; try reflexivity. discriminate. }
  destruct (Z.eqb_spec (StatusCode resp) StatusOK) as [Hs | _].
  - destruct (decodeLogin P (Body resp)); [discriminate | ].
    intros H. inversion H; subst. cbn [authTokens withTokens].
    split; [apply storeCookies_fields | ].
    split; [intros C; contradiction C; reflexivity | ].
    intros _. exists resp. repeat split. exact Hs.
  - intros H. inversion H; subst. cbn. repeat split; try reflexivity. discriminate.
Qed.

Lemma failed_login_and_the_store_witness :
  let P := scripted [NetResponse (mkResponse 200 [mkCookie "accessToken" "a1"] "<html>")] in
  let w' := mkWorld (mkAuthTokens "a1" "r0" "c0" (testNow - 60 * Minute)) 0
                    [loginRequest P testConfig] in
  lastRefresh (authTokens w') = lastRefresh (authTokens staleWorld)
  /\ (FatalParse <> FatalParse -> authTokens w' = authTokens staleWorld)
  /\ (FatalParse = FatalParse ->
      exists resp,
        upstream P 0 (loginRequest P testConfig) = NetResponse resp
        /\ StatusCode resp = StatusOK
        /\ authTokens w' = storeCookies (Cookies resp) (authTokens staleWorld)).
Proof.
  exact (failed_login_and_the_store
           (scripted [NetResponse (mkResponse 200 [mkCookie "accessToken" "a1"] "<html>")])
           testConfig staleWorld FatalParse _ eq_refl).
Defined.

(** X12.  A login answered 200 with a body that parses succeeds even
    when the answer carries none of the three session cookies: the tokens
    stay as they were and only the freshness stamp is renewed, so the old
    tokens count as fresh for the next 14 minutes. *)
Theorem login_without_cookies_only_stamps P config w resp login :
  upstream P (List.length (trace w)) (loginRequest P config) = NetResponse resp ->
  StatusCode resp = StatusOK ->
  decodeLogin P (Body resp) = Some login ->
  cookieOf "accessToken" (Cookies resp) = None ->
  cookieOf "refreshToken" (Cookies resp) = None ->
  cookieOf "csrfToken" (Cookies resp) = None ->
  authenticateWithBackend P config w
  = Returned tt (mkWorld (stampRefresh (clock P (ticks w)) (authTokens w))
                         (S (ticks w)) (trace w ++ [loginRequest P config])).
Proof.
  intros Hu Hs Hd Ha Hr Hc. rewrite authenticate_run. cbn zeta.
  rewrite Hu, Hs, Hd. change (StatusOK =? StatusOK) with true. cbn iota.
  assert (E : storeCookies (Cookies resp) (authTokens w) = authTokens w).
  { destruct (storeCookies_fields (Cookies resp) (authTokens w)) as (Fa & Fr & Fc & Fl).
    rewrite Ha in Fa. rewrite Hr in Fr. rewrite Hc in Fc.
    apply authTokens_ext; assumption. }
  rewrite E. reflexivity.
Qed.

Lemma login_without_cookies_only_stamps_witness :
  let P := scripted [answer 200 "welcome"] in
  authenticateWithBackend P testConfig staleWorld
  = Returned tt (mkWorld (mkAuthTokens "a0" "r0" "c0" testNow) 1
                         [loginRequest P testConfig]).
Proof.
  exact (login_without_cookies_only_stamps (scripted [answer 200 "welcome"])
           testConfig staleWorld (mkResponse 200 [] "welcome")
           (mkLoginResponse "a1" (mkUser 1 "admin" "admin"))
           eq_refl eq_refl eq_refl eq_refl eq_refl eq_refl).
Defined.

(** X13.  The store after the cookie loop depends on the cookies only
    through the last accessToken, refreshToken and csrfToken cookie: two
    lists that agree on those give the same store, whatever their order
    and whatever other cookies they hold, and running the loop over one
    after the other changes nothing more. *)
Theorem store_depends_on_last_session_cookies cs1 cs2 a :
  sameSessionCookies cs1 cs2 ->
  storeCookies cs1 a = storeCookies cs2 a
  /\ storeCookies cs1 (storeCookies cs2 a) = storeCookies cs1 a.
Proof.
  intros (Ha & Hr & Hc).
  destruct (storeCookies_fields cs1 a) as (A1 & R1 & C1 & L1).
  destruct (storeCookies_fields cs2 a) as (A2 & R2 & C2 & L2).
  destruct (storeCookies_fields cs1 (storeCookies cs2 a)) as (A3 & R3 & C3 & L3).
  split; apply authTokens_ext.
  - rewrite A1, A2, Ha. reflexivity.
  - rewrite R1, R2, Hr. reflexivity.
  - rewrite C1, C2, Hc. reflexivity.
  - rewrite L1, L2. reflexivity.
  - rewrite A3, A2, A1, <- Ha. destruct (cookieOf "accessToken" cs1); reflexivity.
  - rewrite R3, R2, R1, <- Hr. destruct (cookieOf "refreshToken" cs1); reflexivity.
  - rewrite C3, C2, C1, <- Hc. destruct (cookieOf "csrfToken" cs1); reflexivity.
  - rewrite L3, L2, L1. reflexivity.
Qed.

Lemma store_depends_on_last_session_cookies_witness :
  let cs1 := [mkCookie "accessToken" "old"; mkCookie "csrfToken" "c1";
              mkCookie "accessToken" "a1"] in
  let cs2 := [mkCookie "Path" "/"; mkCookie "accessToken" "a1";
              mkCookie "csrfToken" "c1"] in
  storeCookies cs1 authTokens0 = storeCookies cs2 authTokens0
  /\ storeCookies cs1 (storeCookies cs2 authTokens0) = storeCookies cs1 authTokens0.
Proof.
  apply store_depends_on_last_session_cookies.
  repeat split.
Defined.

(** ** A login followed by fetches *)

Lemma readStudent_sends_read P backendURL studentID w :
  let url := (backendURL ++ "/students/" ++ studentID)%string in
  validURL P url = true ->
  exists rest,
    trace (finalWorld (readStudent P backendURL studentID w))
    = trace w ++ studentRequest url (authTokens w) :: rest.
Proof.
  intros url Hv.
  destruct (readStudent_calls P backendURL studentID w) as (more & Hm & Hcase).
  fold url in Hcase. destruct Hcase as [-> | (rest & ->)]; [ | exists rest; exact Hm].
  exfalso. rewrite readStudent_run in Hm. cbn zeta in Hm. fold url in Hm.
  rewrite Hv, app_nil_r in Hm.
  set (read1 := studentRequest url (authTokens w)) in *.
  assert (L : forall l : list Request, trace w ++ read1 :: l <> trace w).
  { intros l C. apply (f_equal (@List.length Request)) in C.
    rewrite length_app in C. cbn in C. lia. }
  destruct (upstream P (List.length (trace w)) read1) as [msg | resp].
  { exact (L [] Hm). }
  destruct (StatusCode resp =? StatusUnauthorized).
  - pose proof (authenticate_trace P (loadConfig P) (sent read1 w)) as T.
    destruct (authenticateWithBackend P (loadConfig P) (sent read1 w)) as [[] w2 | f w2];
      cbn [finalWorld] in T, Hm.
    + cbn [sent trace] in Hm. rewrite T in Hm. cbn [sent trace] in Hm.
      rewrite <- !app_assoc in Hm. exact (L _ Hm).
    + rewrite T in Hm. cbn [sent trace] in Hm. rewrite <- app_assoc in Hm.
      exact (L _ Hm).
  - destruct (StatusCode resp =? StatusNotFound); [exact (L [] Hm) | ].
    destruct (StatusCode resp =? StatusOK); exact (L [] Hm).
Qed.

(** The fetch starts with a login exactly when the freshness test of
    line 211 succeeds. *)
Lemma refreshesFirst_iff_test P backendURL studentID w :
  refreshesFirst P backendURL studentID w
  <-> (14 * Minute <? timeSub (clock P (ticks w)) (lastRefresh (authTokens w))) = true.
Proof.
  unfold refreshesFirst.
  destruct (14 * Minute <? timeSub (clock P (ticks w)) (lastRefresh (authTokens w)))
    eqn:Hs.
  - split; [reflexivity | intros _].
    unfold fetchStudentData, bind. rewrite refreshIfStale_run, Hs.
    pose proof (authenticate_trace P (loadConfig P) (ticked w)) as T.
    destruct (authenticateWithBackend P (loadConfig P) (ticked w)) as [[] w1 | f w1];
      cbn [finalWorld] in T.
    + destruct (readStudent_calls P backendURL studentID w1) as (more & Hm & _).
      rewrite Hm, T. cbn [ticked trace]. rewrite <- app_assoc. apply nth_error_app_here.
    + cbn [finalWorld]. rewrite T. cbn [ticked trace]. apply nth_error_app_here.
  - split; [ | discriminate]. intros Hfirst. exfalso.
    rewrite (not_stale_fetch P backendURL studentID w Hs) in Hfirst.
    destruct (readStudent_calls P backendURL studentID (ticked w)) as (more & Hm & Hcase).
    rewrite Hm in Hfirst. cbn [ticked trace] in Hfirst.
    destruct Hcase as [-> | (rest & ->)].
    + rewrite app_nil_r, nth_error_at_length in Hfirst. discriminate.
    + rewrite nth_error_app_here in Hfirst. inversion Hfirst.
Qed.

(** X14.  A session stored by a successful login is reused without a
    new login by every fetch whose clock reading is at most 14 minutes
    after the reading that stamped it, and is refreshed by the first fetch
    after that. *)
Theorem login_is_reused_for_14_minutes P config backendURL studentID w w1 w2 :
  authenticateWithBackend P config w = Returned tt w1 ->
  authTokens w2 = authTokens w1 ->
  (refreshesFirst P backendURL studentID w2
   <-> 14 * Minute < clock P (ticks w2) - clock P (ticks w)).
Proof.
  intros Ha Hsame.
  assert (Hl : lastRefresh (authTokens w1) = clock P (ticks w)).
  { rewrite authenticate_run in Ha. cbn zeta in Ha.
    destruct (upstream P _ _) as [msg | resp]; [discriminate | ].
    destruct (StatusCode resp =? StatusOK); [ | discriminate].
    destruct (decodeLogin P (Body resp)); [ | discriminate].
    inversion Ha. reflexivity. }
  rewrite refreshesFirst_iff_test, stale_iff_age, Hsame, Hl. reflexivity.
Qed.

Lemma login_is_reused_for_14_minutes_witness :
  let P := scripted [loginOK; answer 200 "ada"] in
  let w1 := mkWorld (mkAuthTokens "a1" "r1" "c1" testNow) 1
                    [loginRequest P testConfig] in
  refreshesFirst P "http://b" "1" w1
  <-> 14 * Minute < clock P (ticks w1) - clock P (ticks initialWorld).
Proof.
  exact (login_is_reused_for_14_minutes (scripted [loginOK; answer 200 "ada"])
           testConfig "http://b" "1" initialWorld _ _ eq_refl eq_refl).
Defined.

(** X16.  After a successful freshness refresh the read request is
    built from the store as the login left it: the second call of the
    fetch carries the refreshed tokens, never the stale ones. *)
Theorem refreshed_tokens_are_sent P backendURL studentID w w1 :
  let url := (backendURL ++ "/students/" ++ studentID)%string in
  let o := fetchStudentData P backendURL studentID w in
  14 * Minute < sessionAge P w ->
  authenticateWithBackend P (loadConfig P) (ticked w) = Returned tt w1 ->
  validURL P url = true ->
  exists rest,
    newCalls w o
    = loginRequest P (loadConfig P) :: studentRequest url (authTokens w1) :: rest.
Proof.
  intros url o Hage Ha Hv. apply stale_iff_age in Hage.
  destruct (readStudent_sends_read P backendURL studentID w1 Hv) as (rest & Hr).
  exists rest. apply newCalls_of_trace.
  unfold o, fetchStudentData, bind. rewrite refreshIfStale_run, Hage, Ha.
  fold url in Hr. rewrite Hr.
  pose proof (authenticate_trace P (loadConfig P) (ticked w)) as T.
  rewrite Ha in T. cbn [finalWorld] in T. rewrite T. cbn [ticked trace].
  rewrite <- app_assoc. reflexivity.
Qed.

Lemma refreshed_tokens_are_sent_witness :
  let P := scripted [loginOK; answer 200 "ada"] in
  exists rest,
    newCalls staleWorld (fetchStudentData P "http://b" "1" staleWorld)
    = loginRequest P (loadConfig P)
      :: studentRequest "http://b/students/1"
           (mkAuthTokens "a1" "r1" "c1" (testNow + Second))
      :: rest.
Proof.
  refine (refreshed_tokens_are_sent (scripted [loginOK; answer 200 "ada"])
            "http://b" "1" staleWorld
            (mkWorld (mkAuthTokens "a1" "r1" "c1" (testNow + Second)) 2
                     [loginRequest (scripted []) (loadConfig (scripted []))])
            _ eq_refl eq_refl).
  vm_compute. reflexivity.
Defined.

(** ** What the document records *)

Lemma sprintfD_inj a b : sprintfD a = sprintfD b -> a = b.
Proof.
  unfold sprintfD. intros H.
  assert (N : forall n, Z.to_int n <> Decimal.Pos Decimal.Nil
                        /\ Z.to_int n <> Decimal.Neg Decimal.Nil).
  { intros [ | p | p]; cbn; split; try discriminate;
      intros C; inversion C as [E]; exact (DecimalPos.Unsigned.to_uint_nonnil p E). }
  apply (f_equal NilZero.int_of_string) in H.
  rewrite !NilZero.isi in H by apply N.
  inversion H as [E]. apply DecimalZ.to_int_inj, E.
Qed.

Lemma append_inj_l p x y : (p ++ x)%string = (p ++ y)%string -> x = y.
Proof.
  induction p as [ | c p IH]; cbn; intros H; [exact H | ].
  inversion H. apply IH. assumption.
Qed.

Ltac peel_calls :=
  repeat match goal with
         | H : _ :: _ = _ :: _ |- _ => injection H; clear H; intros
         end.

(** X15.  The calls [generatePDF] makes on the PDF library determine the
    date line and every field of the record except [SystemAccess], which
    is never rendered: two renderings make the same calls exactly when the
    dates agree and the records differ at most in that flag. *)
Theorem document_determines_record date1 date2 s1 s2 :
  pdfOps date1 s1 = pdfOps date2 s2
  <-> date1 = date2 /\ withSystemAccess (SystemAccess s2) s1 = s2.
Proof.
  split.
  - intros H. destruct s1, s2. unfold pdfOps, addInfoRow in H.
    cbn [app ID Name Email SystemAccess Phone Gender DOB Class_ Section_ Roll
         FatherName FatherPhone MotherName MotherPhone GuardianName GuardianPhone
         RelationOfGuardian CurrentAddress PermanentAddress AdmissionDate
         ReporterName] in H.
    peel_calls.
    repeat match goal with
           | H : (_ ++ _)%string = (_ ++ _)%string |- _ =>
               apply append_inj_l in H
           | H : sprintfD _ = sprintfD _ |- _ => apply sprintfD_inj in H
           end.
    subst. split; reflexivity.
  - intros [-> <-]. destruct s1. reflexivity.
Qed.

(** ** A request recovered after a 401 *)

(** X17.  A request with a valid id and a fresh session whose read is
    answered 401 is still served: when the re-authentication succeeds, the
    retried read is answered 200 with a body that decodes and the PDF
    library produces the bytes, the reply is the PDF reply for that id,
    and the store is left as the re-authentication wrote it. *)
Theorem recovered_request_is_served
    P config studentID w w2 resp resp2 student pdfBytes :
  let url := (BackendURL config ++ "/students/" ++ studentID)%string in
  let read1 := studentRequest url (authTokens w) in
  let read2 := studentRequest url (authTokens w2) in
  invalidID studentID = false ->
  sessionAge P w <= 14 * Minute ->
  validURL P url = true ->
  upstream P (List.length (trace w)) read1 = NetResponse resp ->
  StatusCode resp = StatusUnauthorized ->
  authenticateWithBackend P (loadConfig P) (sent read1 (ticked w)) = Returned tt w2 ->
  upstream P (List.length (trace w2)) read2 = NetResponse resp2 ->
  StatusCode resp2 = StatusOK ->
  decodeStudent P (Body resp2) = Some student ->
  pdfOutput P (pdfOps (formatDate P (clock P (ticks w2))) student) = Ok pdfBytes ->
  generateReportHandler P config studentID w
  = Returned (pdfReply studentID pdfBytes) (ticked (sent read2 w2)).
Proof.
  intros url read1 read2 Hid Hage Hv Hu H401 Ha Hu2 H200 Hd Hpdf.
  assert (Hs : (14 * Minute <? timeSub (clock P (ticks w)) (lastRefresh (authTokens w)))
               = false).
  { destruct (14 * Minute <? timeSub _ _) eqn:E; [ | reflexivity].
    apply stale_iff_age in E. unfold sessionAge in Hage. lia. }
  unfold generateReportHandler. rewrite Hid. unfold bind.
  rewrite (not_stale_fetch P _ _ _ Hs), readStudent_run. cbn zeta.
  change (authTokens (ticked w)) with (authTokens w).
  change (trace (ticked w)) with (trace w).
  fold url read1. rewrite Hv, Hu, H401.
  change (StatusUnauthorized =? StatusUnauthorized) with true. cbn iota.
  rewrite Ha. fold read2. rewrite Hu2.
  unfold retryOutcome. rewrite H200. change (StatusOK =? StatusOK) with true.
  cbn iota. unfold decodeBody. rewrite Hd, generatePDF_run.
  cbn [sent ticks]. rewrite Hpdf. reflexivity.
Qed.

Lemma recovered_request_is_served_witness :
  let P := scripted [answer 401 "expired"; loginOK; answer 200 "ada"] in
  exists pdfBytes w',
    generateReportHandler P testConfig "1" freshWorld
    = Returned (pdfReply "1" pdfBytes) w'
    /\ authTokens w' = mkAuthTokens "a1" "r1" "c1" (testNow + Second).
Proof.
  eexists. eexists. split.
  - refine (recovered_request_is_served
              (scripted [answer 401 "expired"; loginOK; answer 200 "ada"])
              testConfig "1" freshWorld
              (mkWorld (mkAuthTokens "a1" "r1" "c1" (testNow + Second)) 2
                 [studentRequest "http://localhost:5007/api/v1/students/1"
                    (authTokens freshWorld);
                  loginRequest (scripted []) (loadConfig (scripted []))])
              (mkResponse 401 [] "expired") (mkResponse 200 [] "ada") ada _
              eq_refl _ eq_refl eq_refl eq_refl eq_refl eq_refl eq_refl eq_refl
              eq_refl).
    vm_compute. discriminate.
  - reflexivity.
Defined.
